(** * PiVot-Server: the NPU inference pipeline

    A shallow embedding of the inference core of the server
    (text_processor.py, text_output_processor.py, image_processor.py and
    npu_inference_engine.py), of the device detection of npu_manager.py and
    of the endpoints of main.py, together with the properties that the
    specification states about them and further properties of the code.

    Python values are embedded as follows.
    - [str] is a list of Unicode code points ([pystr]); literals are written
      as UTF-8 Rocq strings and decoded by [py].
    - [float] is IEEE binary64, embedded as Rocq's primitive floats.
    - a [dict] whose iteration order is observed is an insertion-ordered
      association list ([odict]); the other dicts are [gmap]s.
    - an exception is the [Raise] case of the [res] monad, carrying [str(e)].
    - wall-clock time is the field [now] of the [World]; the operations that
      take time advance it by an amount the world dictates. *)

From Stdlib Require Import ZArith NArith QArith List Lia.
From Stdlib Require Import Strings.String Strings.Ascii.
From Stdlib Require Import Floats.PrimFloat Floats.FloatOps Floats.SpecFloat.
From stdpp Require Import base option list gmap.

#[local] Set Warnings "-inexact-float".

Abbreviation length := Datatypes.length.
Abbreviation pystr := (list N).

#[local] Open Scope N_scope.

(** ** Python strings *)

Module Py.

(** UTF-8 decoding, used only to write string literals. *)
Fixpoint utf8 (bs : list N) : pystr :=
  match bs with
  | [] => []
  | b :: r =>
    if b <? 128 then b :: utf8 r
    else if b <? 224 then
      match r with
      | b1 :: r1 => ((b - 192) * 64 + (b1 - 128)) :: utf8 r1
      | _ => []
      end
    else if b <? 240 then
      match r with
      | b1 :: b2 :: r2 =>
        ((b - 224) * 4096 + (b1 - 128) * 64 + (b2 - 128)) :: utf8 r2
      | _ => []
      end
    else
      match r with
      | b1 :: b2 :: b3 :: r3 =>
        ((b - 240) * 262144 + (b1 - 128) * 4096 + (b2 - 128) * 64 + (b3 - 128))
          :: utf8 r3
      | _ => []
      end
  end.

Definition py (s : string) : pystr :=
  utf8 (map N_of_ascii (list_ascii_of_string s)).

(** [str.isspace] of one character, which is also what [\s] matches in a
    [str] pattern of [re]. *)
Definition isspace (c : N) : bool :=
  ((9 <=? c) && (c <=? 13)) || ((28 <=? c) && (c <=? 32))
  || (c =? 133) || (c =? 160) || (c =? 5760)
  || ((8192 <=? c) && (c <=? 8202))
  || (c =? 8232) || (c =? 8233) || (c =? 8239) || (c =? 8287) || (c =? 12288).

Fixpoint lstrip (s : pystr) : pystr :=
  match s with
  | c :: r => if isspace c then lstrip r else s
  | [] => []
  end.

Definition rstrip (s : pystr) : pystr := rev (lstrip (rev s)).

Definition strip (s : pystr) : pystr := rstrip (lstrip s).

Fixpoint startswith (p s : pystr) : bool :=
  match p, s with
  | [], _ => true
  | a :: p', b :: s' => (a =? b) && startswith p' s'
  | _ :: _, [] => false
  end.

Definition endswith (p s : pystr) : bool := startswith (rev p) (rev s).

(** [sub in s] *)
Fixpoint contains (sub s : pystr) : bool :=
  startswith sub s
  || match s with
     | [] => false
     | _ :: r => contains sub r
     end.

(** [s.replace(old, new)]: the occurrences of [old] are taken from left to
    right and do not overlap; [skip] counts the characters of a replaced
    occurrence that are still to be passed over. *)
Fixpoint replace_from (old new : pystr) (skip : nat) (s : pystr) : pystr :=
  match s with
  | [] => []
  | c :: r =>
    match skip with
    | S k => replace_from old new k r
    | O =>
      if startswith old s
      then new ++ replace_from old new (length old - 1)%nat r
      else c :: replace_from old new 0 r
    end
  end.

Definition replace (old new s : pystr) : pystr :=
  match old with
  | [] => new ++ flat_map (fun c => c :: new) s
  | _ :: _ => replace_from old new 0 s
  end.

(** [s.split(sep)] for a separator of one character. *)
Fixpoint split (sep : N) (s : pystr) : list pystr :=
  match s with
  | [] => [[]]
  | c :: r =>
    if c =? sep then [] :: split sep r
    else match split sep r with
         | p :: ps => (c :: p) :: ps
         | [] => [[c]]
         end
  end.

(** [sep.join(parts)] *)
Fixpoint join (sep : pystr) (parts : list pystr) : pystr :=
  match parts with
  | [] => []
  | p :: ps =>
    match ps with
    | [] => p
    | _ :: _ => p ++ sep ++ join sep ps
    end
  end.

(** [re.sub(r'C+', rep, s)] for a character class [C]: every maximal run of
    characters of the class is replaced by [rep]. *)
Fixpoint sub_runs (cls : N -> bool) (rep : pystr) (in_run : bool) (s : pystr)
  : pystr :=
  match s with
  | [] => []
  | c :: r =>
    if cls c
    then (if in_run then [] else rep) ++ sub_runs cls rep true r
    else c :: sub_runs cls rep false r
  end.

Definition re_sub_runs (cls : N -> bool) (rep s : pystr) : pystr :=
  sub_runs cls rep false s.

(** [re.sub(r'\s+([.,!?;:])', r'\1', s)]: a maximal run of whitespace that
    is followed by one of the six punctuation marks is deleted.  [held] is
    the run of whitespace read and not yet emitted. *)
Definition is_punct (c : N) : bool :=
  existsb (N.eqb c) (py ".,!?;:").

Fixpoint drop_space_before_punct (held s : pystr) : pystr :=
  match s with
  | [] => held
  | c :: r =>
    if isspace c then drop_space_before_punct (held ++ [c]) r
    else if is_punct c then c :: drop_space_before_punct [] r
    else held ++ c :: drop_space_before_punct [] r
  end.

Definition is_ascii (c : N) : bool := c <? 128.

Definition ascii_upper (c : N) : N :=
  if (97 <=? c) && (c <=? 122) then c - 32 else c.

Definition ascii_lower (c : N) : N :=
  if (65 <=? c) && (c <=? 90) then c + 32 else c.

(** Case mapping and character classes outside ASCII follow the Unicode
    tables of the Python runtime (case mapping can change the length of a
    string and depends on the context of a character); the tables are a
    parameter of the model. *)
Class Unicode := {
  unicode_upper : pystr -> pystr;
  unicode_lower : pystr -> pystr;
  unicode_isupper : N -> bool;
  unicode_isdigit : N -> bool;
  unicode_isalnum : N -> bool
}.

Definition upper `{Unicode} (s : pystr) : pystr :=
  if forallb is_ascii s then map ascii_upper s else unicode_upper s.

Definition lower `{Unicode} (s : pystr) : pystr :=
  if forallb is_ascii s then map ascii_lower s else unicode_lower s.

Definition between (lo hi c : N) : bool := (lo <=? c) && (c <=? hi).

(** [c.isupper()], [c.isdigit()] and [c.isalnum()] of one character. *)
Definition isupper `{Unicode} (c : N) : bool :=
  if is_ascii c then between 65 90 c else unicode_isupper c.

Definition isdigit `{Unicode} (c : N) : bool :=
  if is_ascii c then between 48 57 c else unicode_isdigit c.

Definition isalnum `{Unicode} (c : N) : bool :=
  if is_ascii c
  then between 48 57 c || between 65 90 c || between 97 122 c
  else unicode_isalnum c.

End Py.

Import Py.

(** ** Exceptions, numbers and arrays *)

(** A computation that can raise: [Raise msg] carries [str(e)]. *)
Inductive res (A : Type) : Type :=
  | Ok (a : A)
  | Raise (msg : pystr).
Arguments Ok {A} a.
Arguments Raise {A} msg.

#[global] Instance res_ret : MRet res := fun A a => Ok a.
#[global] Instance res_bind : MBind res :=
  fun A B f m => match m with Ok a => f a | Raise e => Raise e end.

(** A handler that turns any exception into [None]. *)
Definition to_option {A} (r : res A) : option A :=
  match r with Ok a => Some a | Raise _ => None end.

(** A Python or NumPy number. *)
Inductive num :=
  | NInt (z : Z)
  | NFloat (f : float).

(** [int(f)]: truncation towards zero. *)
Definition int_of_float (f : float) : res Z :=
  match Prim2SF f with
  | S754_zero _ => Ok 0%Z
  | S754_finite s m e =>
    let a := Z.shiftl (Z.pos m) e in
    Ok (if s then (- a)%Z else a)
  | S754_infinity _ => Raise (py "cannot convert float infinity to integer")
  | S754_nan => Raise (py "cannot convert float NaN to integer")
  end.

Definition int_of (x : num) : res Z :=
  match x with
  | NInt z => Ok z
  | NFloat f => int_of_float f
  end.

(** [float(z)]: the binary64 number nearest to [z]. *)
Definition float_of_Z (z : Z) : float :=
  SF2Prim (binary_normalize prec emax z 0 false).

(** [x > 0] *)
Definition num_pos (x : num) : bool :=
  match x with
  | NInt z => (0 <? z)%Z
  | NFloat f => (0 <? f)%float
  end.

(** [x == y]; Python compares an int with a float by value. *)
Definition num_eqb (x y : num) : bool :=
  match x, y with
  | NInt a, NInt b => (a =? b)%Z
  | NFloat a, NFloat b => (a =? b)%float
  | NInt a, NFloat b | NFloat b, NInt a =>
    match int_of_float b with
    | Ok z => (z =? a)%Z && (float_of_Z z =? b)%float
    | Raise _ => false
    end
  end.

(** [chr(z)] *)
Definition chr (z : Z) : res N :=
  if (0 <=? z)%Z && (z <? 1114112)%Z then Ok (Z.to_N z)
  else Raise (py "chr() arg not in range(0x110000)").

(** A NumPy array: its shape and its elements in row-major order, which is
    what [flatten().tolist()] returns. *)
Record ndarray := { shape : list nat; data : list num }.

(** The argument of the two token decoders: a list of numbers or an array. *)
Inductive tokens :=
  | TokList (l : list num)
  | TokArr (a : ndarray).

Definition tolist (t : tokens) : list num :=
  match t with
  | TokList l => l
  | TokArr a => data a
  end.

(** The tokenizer collaborator (transformers), when one could be loaded.
    [tok_call text add_special_tokens return_attention_mask] is the call
    of the tokenizer with max_length=L, padding to max_length, truncation
    and NumPy tensors; [tok_decode ids skip_special_tokens
    clean_up_tokenization_spaces] is its [decode]; [pad_token_id] is [None]
    when the tokenizer has no such attribute. *)
Record Tokenizer := {
  tok_call : pystr -> bool -> bool -> res (gmap pystr ndarray);
  tok_decode : list num -> bool -> option bool -> res pystr;
  pad_token_id : option (option num)
}.

(** ** text_processor.py *)

Module TextProcessor.

Record t := { max_length : nat; tokenizer : option Tokenizer }.

(** The dict of [extract_features]; [f_length] is its key length. *)
Record features := {
  f_length : nat;
  word_count : nat;
  sentence_count : nat;
  has_question : bool;
  has_exclamation : bool;
  uppercase_ratio : float;
  digit_count : nat;
  special_char_count : nat
}.

(** The values of the dict that [process_for_inference] returns. *)
Inductive tvalue :=
  | TArr (a : ndarray)
  | TFeatures (f : features).

(** The first argument of the only [replace] of line 62.  The line opens a
    triple-quoted literal right after the parenthesis of the first
    replace and closes it before the second comma; what it replaces is the
    text between the two, and it replaces it by a single quote. *)
Definition quote_literal : pystr :=
  py ", " ++ [34] ++ py "'" ++ [34] ++ py ").replace(".

Definition clean_text (text : pystr) : pystr :=
  match text with
  | [] => []
  | _ :: _ =>
    let text := strip text in
    let text := re_sub_runs (N.eqb 10) (py " ") text in
    let text := re_sub_runs isspace (py " ") text in
    let text := replace [34] [34] (replace [34] [34] text) in
    let text := replace quote_literal (py "'") text in
    let text := List.filter (fun char => 32 <=? char) text in
    strip text
  end.

Definition int64_row (ids : list Z) : ndarray :=
  {| shape := [1%nat; length ids]; data := map NInt ids |}.

Definition _simple_tokenize (self : t) (text : pystr) : gmap pystr tvalue :=
  let clean_text := clean_text text in
  let char_ids := map Z.of_N (take (max_length self) clean_text) in
  let char_ids :=
    if (length char_ids <? max_length self)%nat
    then char_ids ++ replicate (max_length self - length char_ids) 0%Z
    else char_ids in
  let input_ids := int64_row char_ids in
  let attention_mask :=
    int64_row (map (fun x => if (0 <? x)%Z then 1%Z else 0%Z) char_ids) in
  <[py "input_ids" := TArr input_ids]>
    (<[py "attention_mask" := TArr attention_mask]> ∅).

Definition tokenize_text (self : t) (text : pystr) : gmap pystr tvalue :=
  match tokenizer self with
  | None => _simple_tokenize self text
  | Some tok =>
    let clean_text := clean_text text in
    match tok_call tok clean_text true true with
    | Raise _ => _simple_tokenize self text
    | Ok encoded =>
      match encoded !! py "input_ids" with
      | None => _simple_tokenize self text
      | Some ids =>
        let result : gmap pystr tvalue := <[py "input_ids" := TArr ids]> ∅ in
        let result :=
          match encoded !! py "attention_mask" with
          | Some m => <[py "attention_mask" := TArr m]> result
          | None => result
          end in
        match encoded !! py "token_type_ids" with
        | Some ty => <[py "token_type_ids" := TArr ty]> result
        | None => result
        end
      end
    end
  end.

Definition decode_tokens (self : t) (token_ids : tokens) : pystr :=
  match tokenizer self with
  | None =>
    let chars :=
      mapM (fun tid => z ← int_of tid; chr z)
           (List.filter num_pos (tolist token_ids)) in
    match chars with
    | Ok s => s
    | Raise _ => []
    end
  | Some tok =>
    match tok_decode tok (tolist token_ids) true (Some true) with
    | Ok decoded_text => strip decoded_text
    | Raise _ => []
    end
  end.

(** [s.split()]: the maximal runs of characters that are not whitespace. *)
Fixpoint words (cur : pystr) (s : pystr) : list pystr :=
  match s with
  | [] => match cur with [] => [] | _ :: _ => [cur] end
  | c :: r =>
    if isspace c
    then match cur with [] => words [] r | _ :: _ => cur :: words [] r end
    else words (cur ++ [c]) r
  end.

Definition count (p : N -> bool) (s : pystr) : nat := length (List.filter p s).

Definition extract_features `{Unicode} (text : pystr) : features :=
  let clean_text := clean_text text in
  {| f_length := length clean_text;
     word_count := length (words [] clean_text);
     sentence_count :=
       length (List.filter (fun s => negb (bool_decide (strip s = [])))
                           (split 46 clean_text));
     has_question := contains (py "?") clean_text;
     has_exclamation := contains (py "!") clean_text;
     uppercase_ratio :=
       (float_of_Z (Z.of_nat (count isupper clean_text))
        / float_of_Z (Z.of_nat (Nat.max (length clean_text) 1)))%float;
     digit_count := count isdigit clean_text;
     special_char_count :=
       count (fun c => negb (isalnum c) && negb (isspace c)) clean_text |}.

Definition process_for_inference `{Unicode} (self : t) (text : pystr)
    (return_features : bool) : gmap pystr tvalue :=
  let tokens := tokenize_text self text in
  if return_features
  then <[py "text_features" := TFeatures (extract_features text)]> tokens
  else tokens.

End TextProcessor.

(** ** text_output_processor.py *)

(** A value of the [outputs] dict handed to the text extractor.  A list or
    a tuple is a sequence of strings or a sequence of numbers; any other
    object is [VOther]. *)
Inductive pyseq :=
  | SeqStr (l : list pystr)
  | SeqNum (l : list num).

Inductive value :=
  | VStr (s : pystr)
  | VList (l : pyseq)
  | VTuple (l : pyseq)
  | VArray (a : ndarray)
  | VOther.

(** An insertion-ordered dict: [odict_set] keeps the place of a key that is
    already present. *)
Definition odict (V : Type) : Type := list (pystr * V).

Fixpoint odict_get {V} (key : pystr) (d : odict V) : option V :=
  match d with
  | [] => None
  | (k, v) :: r => if bool_decide (k = key) then Some v else odict_get key r
  end.

Fixpoint odict_set {V} (key : pystr) (v : V) (d : odict V) : odict V :=
  match d with
  | [] => [(key, v)]
  | (k, w) :: r =>
    if bool_decide (k = key) then (k, v) :: r else (k, w) :: odict_set key v r
  end.

Module TextOutputProcessor.

(** [sample_token logits] is the NumPy part of [process_logits_to_text]:
    reduction to one distribution, temperature, top-k, softmax and
    [np.random.choice]; it is the one nondeterministic step. *)
Record t := {
  tokenizer : option Tokenizer;
  sample_token : ndarray -> res num
}.

Definition in_printable_range (z : Z) : bool := (32 <=? z)%Z && (z <=? 126)%Z.

Definition decode_token_ids (self : t) (token_ids : tokens)
    (skip_special_tokens : bool) : pystr :=
  let decoded : res pystr :=
    match tokenizer self with
    | Some tok =>
      let token_ids := tolist token_ids in
      let token_ids :=
        match skip_special_tokens, pad_token_id tok with
        | true, Some pad =>
          List.filter
            (fun t => negb match pad with
                           | Some p => num_eqb t p
                           | None => false
                           end) token_ids
        | _, _ => token_ids
        end in
      text ← tok_decode tok token_ids skip_special_tokens None;
      mret (strip text)
    | None =>
      let token_ids := tolist token_ids in
      ints ← mapM int_of token_ids;
      mret (strip (map Z.to_N (List.filter in_printable_range ints)))
    end in
  match decoded with
  | Ok text => text
  | Raise e => py "[Decoding Error: " ++ e ++ py "]"
  end.

Definition process_logits_to_text (self : t) (logits : ndarray) : pystr :=
  match sample_token self logits with
  | Ok selected_token_id => decode_token_ids self (TokList [selected_token_id]) true
  | Raise _ => py "[Generation Error]"
  end.

Definition special_tokens : list pystr :=
  map py ["<pad>"; "<unk>"; "<s>"; "</s>"; "<|endoftext|>";
          "[CLS]"; "[SEP]"; "[PAD]"; "[UNK]"; "[MASK]"]%string.

Definition capitalize_sentence `{Unicode} (sentence : pystr) : pystr :=
  match sentence with
  | c :: ((_ :: _) as rest) => upper [c] ++ rest
  | _ => upper sentence
  end.

Definition ends_sentence (marks : list pystr) (text : pystr) : bool :=
  existsb (fun m => endswith m text) marks.

Definition clean_generated_text `{Unicode} (text : pystr) : pystr :=
  match text with
  | [] => []
  | _ :: _ =>
    let text := fold_left (fun text token => replace token [] text)
                          special_tokens text in
    let text := re_sub_runs (N.eqb 10) [10] text in
    let text := re_sub_runs (N.eqb 32) (py " ") text in
    let text := drop_space_before_punct [] text in
    let sentences := split 46 text in
    let cleaned_sentences :=
      flat_map (fun sentence =>
                  match strip sentence with
                  | [] => []
                  | s => [capitalize_sentence s]
                  end) sentences in
    let text := join (py ". ") cleaned_sentences in
    let text :=
      match text with
      | [] => text
      | _ :: _ =>
        if ends_sentence (map py ["."; "!"; "?"]%string) text then text
        else text ++ py "."
      end in
    strip text
  end.

Definition priority_keys : list pystr :=
  map py ["generated_text"; "text_output"; "caption"; "description";
          "answer"; "response"; "prediction"; "output_text";
          "decoded_text"; "text"; "content"]%string.

Definition is_priority_key (key : pystr) : bool :=
  existsb (fun k => bool_decide (k = key)) priority_keys.

(** [isinstance(value, (list, np.ndarray))] *)
Definition is_list_or_array (v : value) : bool :=
  match v with
  | VList _ | VArray _ => true
  | _ => false
  end.

Definition candidate : Type := pystr * value * nat.

Definition text_candidates `{Unicode} (outputs : odict value) : list candidate :=
  flat_map (fun key =>
              match odict_get key outputs with
              | Some v => [(key, v, 10%nat)]
              | None => []
              end) priority_keys
  ++ flat_map (fun '(key, v) =>
                 if negb (is_priority_key key) && contains (py "text") (lower key)
                 then [(key, v, 5%nat)] else []) outputs
  ++ flat_map (fun '(key, v) =>
                 if contains (py "logit") (lower key) && is_list_or_array v
                 then [(key, v, 1%nat)] else []) outputs.

(** [list.sort(key=..., reverse=True)]: descending, and stable. *)
Fixpoint insert_desc (c : candidate) (l : list candidate) : list candidate :=
  match l with
  | [] => [c]
  | d :: r =>
    if (snd d <=? snd c)%nat then c :: l else d :: insert_desc c r
  end.

Definition sort_desc (l : list candidate) : list candidate :=
  fold_right insert_desc [] l.

(** The sentinel of an extraction that found nothing. *)
Definition extraction_failed : pystr :=
  py "テキスト出力の抽出に失敗しました。".

Fixpoint first_text `{Unicode} (self : t) (cands : list candidate) : pystr :=
  match cands with
  | [] => extraction_failed
  | (key, v, _) :: rest =>
    match v with
    | VStr s => clean_generated_text s
    | VList l | VTuple l =>
      match l with
      | SeqStr (s :: _) => clean_generated_text s
      | SeqNum ((_ :: _) as ids) =>
        clean_generated_text (decode_token_ids self (TokList ids) true)
      | _ => first_text self rest
      end
    | VArray a =>
      if contains (py "logit") (lower key)
      then clean_generated_text (process_logits_to_text self a)
      else clean_generated_text (decode_token_ids self (TokArr a) true)
    | VOther => first_text self rest
    end
  end.

Definition extract_text_from_multimodal_output `{Unicode} (self : t)
    (outputs : odict value) : pystr :=
  first_text self (sort_desc (text_candidates outputs)).

Definition no_response : pystr := py "応答を生成できませんでした。".

Definition format_conversation_output `{Unicode} (text : pystr)
    (user_prompt : option pystr) (add_context : bool) : pystr :=
  match text with
  | [] => no_response
  | _ :: _ =>
    let text := clean_generated_text text in
    match add_context, user_prompt with
    | true, Some ((_ :: _) as user_prompt) =>
      if contains (py "質問") user_prompt || contains (py "?") user_prompt
         || contains (py "？") user_prompt
      then
        if ends_sentence (map py ["."; "!"; "?"; "。"; "！"; "？"]%string) text
        then text else text ++ py "。"
      else if contains (py "説明") user_prompt
              || contains (py "教え") user_prompt
      then replace [10] (py " ") text
      else text
    | _, _ => text
    end
  end.

End TextOutputProcessor.

(** ** image_processor.py *)

Module ImageProcessor.

(** An image array of shape (height, width, channels), with its elements
    given by their index. *)
Record array3 := {
  height : nat;
  width : nat;
  channels : nat;
  pixel : nat -> nat -> nat -> Z
}.

(** The tensor handed to a model: shape (batch, channels, height, width). *)
Record tensor4 := {
  dims : nat * nat * nat * nat;
  at4 : nat -> nat -> nat -> nat -> float
}.

Definition shape4 (x : tensor4) : list nat :=
  let '(n, c, h, w) := dims x in [n; c; h; w].

(** The processor object and the libraries it calls.  [pil_open] is
    [Image.open], conversion to RGB and [np.array]; [cv2_imread] is
    [cv2.imread] followed by the conversion from BGR; [cv2_resize image w h]
    is [cv2.resize(image, (w, h))].  [None] stands for a raised exception
    (for [cv2_imread], also for the [None] that imread returns). *)
Record t := {
  target_size : nat * nat;
  mean : list float;
  std : list float;
  pil_open : list N -> option array3;
  cv2_imread : pystr -> option array3;
  cv2_resize : array3 -> Z -> Z -> option array3
}.

Inductive image_input :=
  | Bytes (b : list N)
  | Path (p : pystr)
  | Array (a : array3)
  | Unsupported.

Definition load_image_from_bytes (self : t) (image_bytes : list N)
  : option array3 := pil_open self image_bytes.

Definition load_image_from_file (self : t) (image_path : pystr)
  : option array3 := cv2_imread self image_path.

(** binary32 arithmetic, for [astype(np.float32) / 255.0]. *)
Definition f32_of_Z (z : Z) : spec_float := binary_normalize 24 128 z 0 false.

Definition f32_div (x y : spec_float) : spec_float := SFdiv 24 128 x y.

Definition preprocess_pixel (self : t) (normalize : bool) (c : nat) (v : Z)
  : float :=
  let image_float := SF2Prim (f32_div (f32_of_Z v) (f32_of_Z 255)) in
  if normalize
  then ((image_float - nth c (mean self) nan) / nth c (std self) nan)%float
  else image_float.

(** [preprocess_image]; it re-raises what it catches.  The subtraction of
    the three channel means needs three channels, and OpenCV returns an
    image of one channel without its channel axis, which the transposition
    refuses. *)
Definition preprocess_image (self : t) (image : array3) (normalize : bool)
  : option tensor4 :=
  let '(target_w, target_h) := target_size self in
  image_resized ← cv2_resize self image (Z.of_nat target_w) (Z.of_nat target_h);
  if negb ((channels image_resized =? 1)%nat
           || normalize && negb (channels image_resized =? 3)%nat)
  then
    Some {| dims := (1%nat, channels image_resized,
                     height image_resized, width image_resized);
            at4 := fun _ c y x =>
                     preprocess_pixel self normalize c (pixel image_resized y x c) |}
  else None.

(** The bounds of the slice [a:b] of an axis of length [n]. *)
Definition slice_index (n : nat) (i : Z) : Z :=
  if (i <? 0)%Z then Z.max (i + Z.of_nat n) 0 else Z.min i (Z.of_nat n).

Definition slice_bounds (n : nat) (a b : Z) : nat * nat :=
  let lo := slice_index n a in
  let hi := slice_index n b in
  (Z.to_nat lo, Z.to_nat (Z.max lo hi)).

(** [np.full((h, w, 3), fill_color, dtype=np.uint8)] *)
Definition np_full (h w : nat) (fill_color : list Z) : array3 :=
  {| height := h; width := w; channels := 3;
     pixel := fun _ _ c => nth c fill_color 0%Z |}.

(** An axis of [n] elements is assigned to one of [m] when [n = m], and is
    repeated when [n = 1]. *)
Definition broadcasts (n m : nat) : bool := (n =? m)%nat || (n =? 1)%nat.

Definition broadcast_index (n i : nat) : nat := if (n =? 1)%nat then 0%nat else i.

(** [result[y0:y1, x0:x1] = value]; [None] when the shapes do not match. *)
Definition assign_slice (result : array3) (y0 y1 x0 x1 : Z) (value : array3)
  : option array3 :=
  let '(ya, yb) := slice_bounds (height result) y0 y1 in
  let '(xa, xb) := slice_bounds (width result) x0 x1 in
  if broadcasts (height value) (yb - ya) && broadcasts (width value) (xb - xa)
     && broadcasts (channels value) (channels result)
  then
    Some {| height := height result; width := width result;
            channels := channels result;
            pixel := fun y x c =>
              if (ya <=? y)%nat && (y <? yb)%nat && (xa <=? x)%nat && (x <? xb)%nat
              then pixel value (broadcast_index (height value) (y - ya))
                               (broadcast_index (width value) (x - xa))
                               (broadcast_index (channels value) c)
              else pixel result y x c |}
  else None.

(** The same assignment for a value of two dimensions (rows, columns),
    which is what OpenCV returns for an image of one channel: NumPy aligns
    the two axes of the value with the last two of the slice, its columns
    and its channels. *)
Definition assign_slice_2d (result : array3) (y0 y1 x0 x1 : Z) (value : array3)
  : option array3 :=
  let '(ya, yb) := slice_bounds (height result) y0 y1 in
  let '(xa, xb) := slice_bounds (width result) x0 x1 in
  if broadcasts (height value) (xb - xa)
     && broadcasts (width value) (channels result)
  then
    Some {| height := height result; width := width result;
            channels := channels result;
            pixel := fun y x c =>
              if (ya <=? y)%nat && (y <? yb)%nat && (xa <=? x)%nat && (x <? xb)%nat
              then pixel value (broadcast_index (height value) (x - xa))
                               (broadcast_index (width value) c) 0
              else pixel result y x c |}
  else None.

(** [min(a, b)] of two floats. *)
Definition py_min (a b : float) : float := if (b <? a)%float then b else a.

(** The body of the [try] of [resize_maintain_aspect_ratio].  A resized
    image of one channel has lost its channel axis. *)
Definition resize_centered (self : t) (image : array3) (target_size : nat * nat)
    (fill_color : list Z) : option array3 :=
  let h := height image in
  let w := width image in
  let '(target_w, target_h) := target_size in
  if (w =? 0)%nat || (h =? 0)%nat then None
  else
    let scale := py_min (float_of_Z (Z.of_nat target_w) / float_of_Z (Z.of_nat w))
                        (float_of_Z (Z.of_nat target_h) / float_of_Z (Z.of_nat h)) in
    new_w ← to_option (int_of_float (float_of_Z (Z.of_nat w) * scale));
    new_h ← to_option (int_of_float (float_of_Z (Z.of_nat h) * scale));
    resized ← cv2_resize self image new_w new_h;
    let result := np_full target_h target_w fill_color in
    let y_offset := ((Z.of_nat target_h - new_h) `div` 2)%Z in
    let x_offset := ((Z.of_nat target_w - new_w) `div` 2)%Z in
    if (channels resized =? 1)%nat
    then assign_slice_2d result y_offset (y_offset + new_h)
                         x_offset (x_offset + new_w) resized
    else assign_slice result y_offset (y_offset + new_h)
                      x_offset (x_offset + new_w) resized.

Definition resize_maintain_aspect_ratio (self : t) (image : array3)
    (target_size : nat * nat) (fill_color : list Z) : option array3 :=
  match resize_centered self image target_size fill_color with
  | Some result => Some result
  | None =>
    cv2_resize self image (Z.of_nat (fst target_size)) (Z.of_nat (snd target_size))
  end.

Definition default_fill_color : list Z := [128; 128; 128]%Z.

(** The dispatch on the type of the input; an input of another type
    raises, and the handler of [process_for_inference] returns [None]. *)
Definition load_image (self : t) (image_input : image_input) : option array3 :=
  match image_input with
  | Bytes b => load_image_from_bytes self b
  | Path p => load_image_from_file self p
  | Array a => Some a
  | Unsupported => None
  end.

Definition process_for_inference (self : t) (image_input : image_input)
    (maintain_aspect_ratio : bool) : option tensor4 :=
  image ← load_image self image_input;
  image ← (if maintain_aspect_ratio
           then resize_maintain_aspect_ratio self image (target_size self)
                                             default_fill_color
           else Some image);
  preprocess_image self image true.

(** The ImageNet constants of the constructor. *)
Definition imagenet_mean : list float := [0.485; 0.456; 0.406]%float.
Definition imagenet_std : list float := [0.229; 0.224; 0.225]%float.

(** [np.clip(x, 0, 255).astype(np.uint8)] of one element: truncation of the
    clipped value.  The cast of a NaN, which the clip leaves as it is,
    depends on the platform and is the parameter [nan_cast]. *)
Definition clip_uint8 (nan_cast : Z) (x : float) : Z :=
  let clipped :=
    if (x <? 0)%float then 0%float
    else if (255 <? x)%float then 255%float else x in
  match int_of_float clipped with
  | Ok z => z
  | Raise _ => nan_cast
  end.

(** What [postprocess_image] returns: the restored image, or, when an
    exception was caught, its argument. *)
Inductive postprocessed :=
  | Restored (image : array3)
  | Unchanged (processed_image : tensor4).

(** [postprocess_image] on a tensor of four dimensions.  An empty batch has
    no element 0; at most four channels are moved to the last axis; the
    last axis is then multiplied by the three standard deviations, which
    needs three elements, or one that is repeated. *)
Definition postprocess_image (nan_cast : Z) (self : t) (processed_image : tensor4)
  : postprocessed :=
  let '(n, c, h, w) := dims processed_image in
  let restore (k : nat) (v : float) : Z :=
    clip_uint8 nan_cast ((v * nth k (std self) nan + nth k (mean self) nan) * 255)%float in
  if (n =? 0)%nat then Unchanged processed_image
  else if (c <=? 4)%nat then
    if broadcasts c 3
    then Restored {| height := h; width := w; channels := 3;
                     pixel := fun y x k =>
                       restore k (at4 processed_image 0 (broadcast_index c k) y x) |}
    else Unchanged processed_image
  else
    if broadcasts w 3
    then Restored {| height := c; width := h; channels := 3;
                     pixel := fun i j k =>
                       restore k (at4 processed_image 0 i j (broadcast_index w k)) |}
    else Unchanged processed_image.

End ImageProcessor.

(** ** npu_inference_engine.py *)

Module Engine.

(** The tensors bound to the input ports of a compiled model, and the two
    ways of passing them: a list (by position) or a dict (by port name). *)
Inductive tensor :=
  | TImage (x : ImageProcessor.tensor4)
  | TText (v : TextProcessor.tvalue).

Inductive call_arg :=
  | ByPosition (l : list tensor)
  | ByName (m : gmap pystr tensor).

(** A port of a compiled model.  OpenVINO raises when [any_name] is read on
    a tensor without names and when [shape] is read on a dynamic shape. *)
Record Port := {
  any_name : res pystr;
  port_shape : res (list nat);
  element_type : pystr
}.

(** A compiled model: [run arg] is the call [compiled_model(arg)], and the
    result is indexed by output position. *)
Record CompiledModel := {
  inputs : list Port;
  outputs : list Port;
  run : call_arg -> res (nat -> res ndarray)
}.

(** What the engine observes of its environment.  [now] is [time.time()];
    the [steps]-th operation that takes time advances it by [delay steps].
    [compile_model] is [npu_manager.compile_model], which returns [None]
    instead of raising.  [calls] is the trace of the model invocations. *)
Record World := {
  now : Z;
  steps : nat;
  delay : nat -> Z;
  path_exists : pystr -> bool;
  pathlib_str : pystr -> pystr;
  compile_model : pystr -> list (pystr * pystr) -> option CompiledModel;
  npu_device : pystr;
  draws : nat;
  randn : nat -> list nat -> ndarray;
  calls : list (pystr * call_arg)
}.

Definition tick (w : World) : World :=
  {| now := now w + delay w (steps w); steps := S (steps w); delay := delay w;
     path_exists := path_exists w; pathlib_str := pathlib_str w;
     compile_model := compile_model w; npu_device := npu_device w;
     draws := draws w; randn := randn w; calls := calls w |}.

Definition log_call (entry : pystr * call_arg) (w : World) : World :=
  {| now := now w; steps := steps w; delay := delay w;
     path_exists := path_exists w; pathlib_str := pathlib_str w;
     compile_model := compile_model w; npu_device := npu_device w;
     draws := draws w; randn := randn w; calls := calls w ++ [entry] |}.

Definition draw (w : World) : World :=
  {| now := now w; steps := steps w; delay := delay w;
     path_exists := path_exists w; pathlib_str := pathlib_str w;
     compile_model := compile_model w; npu_device := npu_device w;
     draws := S (draws w); randn := randn w; calls := calls w |}.

(** [compiled_model(arg)] *)
Definition invoke (model_name : pystr) (compiled_model : CompiledModel)
    (arg : call_arg) (w : World) : res (nat -> res ndarray) * World :=
  (run compiled_model arg, tick (log_call (model_name, arg) w)).

Record PortInfo := { info_shape : list nat; info_type : pystr }.

Record ModelConfig := {
  config_type : pystr;
  config_path : pystr;
  config_inputs : gmap pystr PortInfo;
  config_outputs : gmap pystr PortInfo;
  config_input_shapes : gmap pystr (list nat)
}.

Record t := {
  models : gmap pystr CompiledModel;
  model_configs : gmap pystr ModelConfig;
  image_processor : ImageProcessor.t;
  text_processor : TextProcessor.t;
  text_output_processor : TextOutputProcessor.t
}.

Definition set_models (self : t) (m : gmap pystr CompiledModel) : t :=
  {| models := m; model_configs := model_configs self;
     image_processor := image_processor self;
     text_processor := text_processor self;
     text_output_processor := text_output_processor self |}.

Definition set_model_configs (self : t) (c : gmap pystr ModelConfig) : t :=
  {| models := models self; model_configs := c;
     image_processor := image_processor self;
     text_processor := text_processor self;
     text_output_processor := text_output_processor self |}.

(** The loops of [load_model] over the ports: the shape is read before the
    name. *)
Fixpoint port_info (ports : list Port) (info : gmap pystr PortInfo)
  : res (gmap pystr PortInfo) :=
  match ports with
  | [] => Ok info
  | port :: rest =>
    s ← port_shape port;
    name ← any_name port;
    port_info rest
      (<[name := {| info_shape := s; info_type := element_type port |}]> info)
  end.

Definition load_model (self : t) (w : World) (model_name model_path : pystr)
    (model_type : pystr) (input_shapes : option (gmap pystr (list nat)))
    (compile_config : list (pystr * pystr)) : bool * t :=
  if negb (path_exists w model_path) then (false, self)
  else
    match compile_model w (pathlib_str w model_path) compile_config with
    | None => (false, self)
    | Some compiled_model =>
      let self := set_models self (<[model_name := compiled_model]> (models self)) in
      let info :=
        input_info ← port_info (inputs compiled_model) ∅;
        output_info ← port_info (outputs compiled_model) ∅;
        mret (input_info, output_info) in
      match info with
      | Raise _ => (false, self)
      | Ok (input_info, output_info) =>
        let config :=
          {| config_type := model_type;
             config_path := pathlib_str w model_path;
             config_inputs := input_info;
             config_outputs := output_info;
             config_input_shapes := default ∅ input_shapes |} in
        (true, set_model_configs self (<[model_name := config]> (model_configs self)))
      end
    end.

(** [del d[k]] raises when the key is absent, and the handler of
    [unload_model] then returns [False]. *)
Definition unload_model (self : t) (model_name : pystr) : bool * t :=
  match models self !! model_name with
  | Some _ =>
    let self := set_models self (delete model_name (models self)) in
    match model_configs self !! model_name with
    | Some _ =>
      (true, set_model_configs self (delete model_name (model_configs self)))
    | None => (false, self)
    end
  | None => (false, self)
  end.

Definition get_model_info (self : t) (model_name : pystr) : option ModelConfig :=
  model_configs self !! model_name.

Record preprocess_config := {
  maintain_aspect_ratio : bool;
  return_features : bool
}.

(** [preprocess_config or {}] and the two [config.get(..., False)]. *)
Definition config_or_default (c : option preprocess_config) : preprocess_config :=
  default {| maintain_aspect_ratio := false; return_features := false |} c.

Record Timing := {
  preprocess_time : Z;
  inference_time : Z;
  total_time : Z
}.

(** The dict that an inference returns; a key that the dict does not have
    is [None]. *)
Record InferenceResult := {
  success : bool;
  error : option pystr;
  model_name : pystr;
  result_outputs : option (odict value);
  timing : option Timing;
  input_shape : option (list nat);
  input_text_length : option nat;
  input_shapes : option (list nat * nat);
  device : option pystr;
  generated_text : option pystr
}.

Definition failure (e model_name : pystr) : InferenceResult :=
  {| success := false; error := Some e; model_name := model_name;
     result_outputs := None; timing := None; input_shape := None;
     input_text_length := None; input_shapes := None; device := None;
     generated_text := None |}.

(** The loop that names the results: [outputs[port.any_name] = result[i]]. *)
Fixpoint collect_outputs (ports : list Port) (i : nat) (result : nat -> res ndarray)
    (outputs : odict value) : res (odict value) :=
  match ports with
  | [] => Ok outputs
  | output_port :: rest =>
    r ← result i;
    name ← any_name output_port;
    collect_outputs rest (S i) result (odict_set name (VArray r) outputs)
  end.

(** What the body of a [try] hands on: an early [return None], or a value. *)
Inductive outcome (A : Type) : Type :=
  | ReturnNone
  | Done (a : A).
Arguments ReturnNone {A}.
Arguments Done {A} a.

Definition finish (model_name : pystr)
    (body : res (outcome InferenceResult) * World)
  : option InferenceResult * World :=
  match body with
  | (Ok ReturnNone, w) => (None, w)
  | (Ok (Done r), w) => (Some r, w)
  | (Raise e, w) => (Some (failure e model_name), w)
  end.

(** [list(compiled_model.inputs)[0].any_name] *)
Definition first_input_name (compiled_model : CompiledModel) : res pystr :=
  match inputs compiled_model with
  | [] => Raise (py "list index out of range")
  | port :: _ => any_name port
  end.

Definition infer_image (self : t) (w : World) (model_name : pystr)
    (image_input : ImageProcessor.image_input)
    (preprocess_config : option preprocess_config)
  : option InferenceResult * World :=
  match models self !! model_name with
  | None => (None, w)
  | Some compiled_model =>
    finish model_name (
      let start_time := now w in
      let config := config_or_default preprocess_config in
      let processed_image :=
        ImageProcessor.process_for_inference (image_processor self) image_input
          (maintain_aspect_ratio config) in
      let w := tick w in
      match processed_image with
      | None => (Ok ReturnNone, w)
      | Some processed_image =>
        let preprocess_time := (now w - start_time)%Z in
        let infer_start := now w in
        match first_input_name compiled_model with
        | Raise e => (Raise e, w)
        | Ok _ =>
          let '(result, w) :=
            invoke model_name compiled_model (ByPosition [TImage processed_image]) w in
          (result ← result;
           let inference_time := (now w - infer_start)%Z in
           let total_time := (now w - start_time)%Z in
           outputs ← collect_outputs (outputs compiled_model) 0 result [];
           mret (Done
             {| success := true; error := None; model_name := model_name;
                result_outputs := Some outputs;
                timing := Some {| preprocess_time := preprocess_time;
                                  inference_time := inference_time;
                                  total_time := total_time |};
                input_shape := Some (ImageProcessor.shape4 processed_image);
                input_text_length := None; input_shapes := None;
                device := Some (npu_device w); generated_text := None |}), w)
        end
      end)
  end.

Definition input_id_names : list pystr := map py ["input"; "input_ids"; "inputs"]%string.

(** The binding loop of [infer_text]. *)
Fixpoint bind_text_ports (ports : list Port)
    (processed_text : gmap pystr TextProcessor.tvalue)
    (inputs : gmap pystr tensor) : res (gmap pystr tensor) :=
  match ports with
  | [] => Ok inputs
  | input_port :: rest =>
    input_name ← any_name input_port;
    bind_text_ports rest processed_text
      match processed_text !! input_name with
      | Some v => <[input_name := TText v]> inputs
      | None =>
        match processed_text !! py "input_ids" with
        | Some ids =>
          if existsb (fun n => bool_decide (n = input_name)) input_id_names
          then <[input_name := TText ids]> inputs else inputs
        | None => inputs
        end
      end
  end.

Definition infer_text `{Unicode} (self : t) (w : World) (model_name : pystr)
    (text_input : pystr) (preprocess_config : option preprocess_config)
  : option InferenceResult * World :=
  match models self !! model_name with
  | None => (None, w)
  | Some compiled_model =>
    finish model_name (
      let start_time := now w in
      let config := config_or_default preprocess_config in
      let processed_text :=
        TextProcessor.process_for_inference (text_processor self) text_input
          (return_features config) in
      let w := tick w in
      let preprocess_time := (now w - start_time)%Z in
      let infer_start := now w in
      match bind_text_ports (inputs compiled_model) processed_text ∅ with
      | Raise e => (Raise e, w)
      | Ok inputs =>
        if bool_decide (inputs = ∅) then (Ok ReturnNone, w)
        else
          let '(result, w) := invoke model_name compiled_model (ByName inputs) w in
          (result ← result;
           let inference_time := (now w - infer_start)%Z in
           let total_time := (now w - start_time)%Z in
           outputs ← collect_outputs (outputs compiled_model) 0 result [];
           mret (Done
             {| success := true; error := None; model_name := model_name;
                result_outputs := Some outputs;
                timing := Some {| preprocess_time := preprocess_time;
                                  inference_time := inference_time;
                                  total_time := total_time |};
                input_shape := None;
                input_text_length := Some (length text_input);
                input_shapes := None;
                device := Some (npu_device w); generated_text := None |}), w)
      end)
  end.

Definition image_input_names : list pystr :=
  map py ["image"; "images"; "pixel_values"; "input_image"]%string.

Definition is_image_input `{Unicode} (input_name : pystr) : bool :=
  existsb (fun name => contains name (lower input_name)) image_input_names.

(** The first loop of [infer_multimodal]: it stops at the first match. *)
Fixpoint bind_image `{Unicode} (ports : list Port) (processed_image : tensor)
    (inputs : gmap pystr tensor) : res (gmap pystr tensor) :=
  match ports with
  | [] => Ok inputs
  | input_port :: rest =>
    input_name ← any_name input_port;
    if is_image_input input_name
    then Ok (<[input_name := processed_image]> inputs)
    else bind_image rest processed_image inputs
  end.

(** The second loop of [infer_multimodal]. *)
Fixpoint bind_text (ports : list Port)
    (processed_text : gmap pystr TextProcessor.tvalue)
    (inputs : gmap pystr tensor) : res (gmap pystr tensor) :=
  match ports with
  | [] => Ok inputs
  | input_port :: rest =>
    input_name ← any_name input_port;
    bind_text rest processed_text
      match processed_text !! input_name with
      | Some v => <[input_name := TText v]> inputs
      | None => inputs
      end
  end.

Definition bind_multimodal `{Unicode} (ports : list Port)
    (processed_image : ImageProcessor.tensor4)
    (processed_text : gmap pystr TextProcessor.tvalue)
  : res (gmap pystr tensor) :=
  inputs ← bind_image ports (TImage processed_image) ∅;
  bind_text ports processed_text inputs.

(** [infer_multimodal] up to the dict of named outputs. *)
Definition run_multimodal `{Unicode} (self : t) (w : World) (model_name : pystr)
    (compiled_model : CompiledModel)
    (image_input : ImageProcessor.image_input) (text_input : pystr)
    (preprocess_config : option preprocess_config)
  : res (outcome (odict value * Timing * ImageProcessor.tensor4)) * World :=
  let start_time := now w in
  let config := config_or_default preprocess_config in
  let processed_image :=
    ImageProcessor.process_for_inference (image_processor self) image_input
      (maintain_aspect_ratio config) in
  let w := tick w in
  let processed_text :=
    TextProcessor.process_for_inference (text_processor self) text_input
      (return_features config) in
  let w := tick w in
  match processed_image with
  | None => (Ok ReturnNone, w)
  | Some processed_image =>
    if bool_decide (processed_text = ∅) then (Ok ReturnNone, w)
    else
      let preprocess_time := (now w - start_time)%Z in
      let infer_start := now w in
      match bind_multimodal (inputs compiled_model) processed_image processed_text with
      | Raise e => (Raise e, w)
      | Ok inputs =>
        let '(result, w) := invoke model_name compiled_model (ByName inputs) w in
        (result ← result;
         let inference_time := (now w - infer_start)%Z in
         let total_time := (now w - start_time)%Z in
         outputs ← collect_outputs (outputs compiled_model) 0 result [];
         mret (Done (outputs,
                     {| preprocess_time := preprocess_time;
                        inference_time := inference_time;
                        total_time := total_time |},
                     processed_image)), w)
      end
  end.

(** The text of the answer: extracted only for a model of type multimodal,
    and formatted only when it is not empty. *)
Definition extract_generated_text `{Unicode} (self : t) (model_name text_input : pystr)
    (outputs : odict value) : option pystr :=
  match model_configs self !! model_name with
  | Some model_config =>
    if bool_decide (config_type model_config = py "multimodal")
    then
      let generated_text :=
        TextOutputProcessor.extract_text_from_multimodal_output
          (text_output_processor self) outputs in
      match generated_text with
      | [] => Some generated_text
      | _ :: _ =>
        Some (TextOutputProcessor.format_conversation_output generated_text
                (Some text_input) true)
      end
    else None
  | None => None
  end.

Definition infer_multimodal `{Unicode} (self : t) (w : World) (model_name : pystr)
    (image_input : ImageProcessor.image_input) (text_input : pystr)
    (preprocess_config : option preprocess_config)
  : option InferenceResult * World :=
  match models self !! model_name with
  | None => (None, w)
  | Some compiled_model =>
    finish model_name (
      let '(ran, w) :=
        run_multimodal self w model_name compiled_model image_input text_input
                       preprocess_config in
      (ran ← ran;
       match ran with
       | ReturnNone => mret ReturnNone
       | Done (outputs, timing, processed_image) =>
         let generated_text :=
           extract_generated_text self model_name text_input outputs in
         mret (Done
           {| success := true; error := None; model_name := model_name;
              result_outputs := Some outputs;
              timing := Some timing;
              input_shape := None; input_text_length := None;
              input_shapes := Some (ImageProcessor.shape4 processed_image,
                                    length text_input);
              device := Some (npu_device w);
              generated_text :=
                match generated_text with
                | Some ((_ :: _) as text) => Some text
                | _ => None
                end |})
       end, w))
  end.

(** *** Benchmark *)

Definition np_ones (s : list nat) : ndarray :=
  {| shape := s; data := replicate (foldr Nat.mul 1%nat s) (NFloat 1) |}.

(** The dummy inputs; called without a dimension, [np.random.randn] returns
    a float, which has no [astype]. *)
Fixpoint dummy_inputs (ports : list Port) (input_type : pystr) (w : World)
    (inputs : gmap pystr tensor) : res (gmap pystr tensor) * World :=
  match ports with
  | [] => (Ok inputs, w)
  | input_port :: rest =>
    match any_name input_port, port_shape input_port with
    | Raise e, _ | Ok _, Raise e => (Raise e, w)
    | Ok input_name, Ok input_shape =>
      if bool_decide (input_type = py "random")
      then
        match input_shape with
        | [] => (Raise (py "'float' object has no attribute 'astype'"), draw w)
        | _ :: _ =>
          dummy_inputs rest input_type (draw w)
            (<[input_name := TText (TextProcessor.TArr (randn w (draws w) input_shape))]>
               inputs)
        end
      else
        dummy_inputs rest input_type w
          (<[input_name := TText (TextProcessor.TArr (np_ones input_shape))]> inputs)
    end
  end.

(** [for _ in range(n): compiled_model(dummy_inputs)] *)
Fixpoint warmup (n : nat) (model_name : pystr) (compiled_model : CompiledModel)
    (arg : call_arg) (w : World) : res unit * World :=
  match n with
  | O => (Ok (), w)
  | S k =>
    let '(result, w) := invoke model_name compiled_model arg w in
    match result with
    | Raise e => (Raise e, w)
    | Ok _ => warmup k model_name compiled_model arg w
    end
  end.

(** The timed loop: one sample per iteration, the difference of the two
    readings of the clock around the call. *)
Fixpoint timed_runs (n : nat) (model_name : pystr) (compiled_model : CompiledModel)
    (arg : call_arg) (w : World) (times : list Z) : res (list Z) * World :=
  match n with
  | O => (Ok times, w)
  | S k =>
    let start_time := now w in
    let '(result, w) := invoke model_name compiled_model arg w in
    match result with
    | Raise e => (Raise e, w)
    | Ok _ =>
      let end_time := now w in
      timed_runs k model_name compiled_model arg w
                 (times ++ [(end_time - start_time)%Z])
    end
  end.

(** The quotient [1.0 / mean_time] of NumPy: infinite for a zero mean. *)
Inductive quotient :=
  | Infinite
  | Finite (q : Q).

(** The statistics are exact rationals here; [variance] is the square of
    [std_time]. *)
Record TimingStats := {
  mean_time : Q;
  variance : Q;
  min_time : Z;
  max_time : Z;
  fps : quotient
}.

Definition sumZ (l : list Z) : Z := foldr Z.add 0%Z l.

Definition sumQ (l : list Q) : Q := foldr Qplus 0%Q l.

Definition np_mean (times : list Z) : Q :=
  (inject_Z (sumZ times) / inject_Z (Z.of_nat (length times)))%Q.

Definition np_var (times : list Z) : Q :=
  let m := np_mean times in
  (sumQ (map (fun x => (inject_Z x - m) * (inject_Z x - m)) times)
   / inject_Z (Z.of_nat (length times)))%Q.

(** [np.min] raises on an empty list. *)
Definition timing_stats_of (times : list Z) : res TimingStats :=
  match times with
  | [] => Raise (py "zero-size array to reduction operation minimum which has no identity")
  | x :: rest =>
    let mean_time := np_mean times in
    Ok {| mean_time := mean_time;
          variance := np_var times;
          min_time := foldr Z.min x rest;
          max_time := foldr Z.max x rest;
          fps := if (sumZ times =? 0)%Z then Infinite else Finite (1 / mean_time)%Q |}
  end.

Record BenchmarkResult := {
  bench_model_name : pystr;
  bench_model_type : pystr;
  bench_device : pystr;
  iterations : Z;
  timing_stats : TimingStats;
  bench_input_shapes : gmap pystr (list nat)
}.

Fixpoint port_shapes (ports : list Port) (acc : gmap pystr (list nat))
  : res (gmap pystr (list nat)) :=
  match ports with
  | [] => Ok acc
  | port :: rest =>
    name ← any_name port;
    s ← port_shape port;
    port_shapes rest (<[name := s]> acc)
  end.

Definition warmup_iterations : nat := 3.

Definition benchmark_model (self : t) (w : World) (model_name input_type : pystr)
    (num_iterations : Z) : option BenchmarkResult * World :=
  match models self !! model_name with
  | None => (None, w)
  | Some compiled_model =>
    match model_configs self !! model_name with
    | None => (None, w)
    | Some model_config =>
      let '(built, w) := dummy_inputs (inputs compiled_model) input_type w ∅ in
      match built with
      | Raise _ => (None, w)
      | Ok dummy =>
        let '(warm, w) :=
          warmup warmup_iterations model_name compiled_model (ByName dummy) w in
        match warm with
        | Raise _ => (None, w)
        | Ok _ =>
          let '(timed, w) :=
            timed_runs (Z.to_nat num_iterations) model_name compiled_model
                       (ByName dummy) w [] in
          let report :=
            times ← timed;
            stats ← timing_stats_of times;
            shapes ← port_shapes (inputs compiled_model) ∅;
            mret {| bench_model_name := model_name;
                    bench_model_type := config_type model_config;
                    bench_device := npu_device w;
                    iterations := num_iterations;
                    timing_stats := stats;
                    bench_input_shapes := shapes |} in
          (to_option report, w)
        end
      end
    end
  end.

End Engine.

(** ** npu_manager.py *)

Module NPUManager.

(** The manager once constructed: [_detect_devices] has set [npu_device]. *)
Record t := {
  available_devices : list pystr;
  npu_device : pystr
}.

(** [_detect_devices], from what [core.available_devices] gives; when that
    raises, the list stays empty and the device is CPU. *)
Definition _detect_devices `{Unicode} (core_available_devices : res (list pystr)) : t :=
  match core_available_devices with
  | Ok devices =>
    let npu_devices :=
      List.filter (fun device => contains (py "NPU") (upper device)) devices in
    {| available_devices := devices;
       npu_device := match npu_devices with
                     | device :: _ => device
                     | [] => py "CPU"
                     end |}
  | Raise _ => {| available_devices := []; npu_device := py "CPU" |}
  end.

(** [self.npu_device and "NPU" in self.npu_device.upper()], as a truth
    value. *)
Definition is_npu_available `{Unicode} (self : t) : bool :=
  match npu_device self with
  | [] => false
  | _ :: _ => contains (py "NPU") (upper (npu_device self))
  end.

End NPUManager.

(** ** main.py *)

Module Server.

(** What the handler sees of the answer to an HTTP GET: the status, the
    content-type header if there is one, and the body, whose reading can
    fail. *)
Record HttpResponse := {
  status : Z;
  content_type : option pystr;
  read : res (list N)
}.

(** [fetch_image_from_url]: every exception gives [None]. *)
Definition fetch_image_from_url `{Unicode} (session_get : pystr -> res HttpResponse)
    (image_url : pystr) : option (list N) :=
  match session_get image_url with
  | Raise _ => None
  | Ok response =>
    if (status response =? 200)%Z
    then
      let content_type := lower (default [] (content_type response)) in
      if contains (py "image") content_type
      then to_option (read response)
      else None
    else None
  end.

Definition build_image_url (base_url image_id : pystr) : pystr :=
  if endswith (py "/") base_url
  then base_url ++ image_id
  else base_url ++ py "/" ++ image_id.

(** The request; the two fields with a default are optional, so that a
    request can set them to null. *)
Record TextOnlyInferenceRequest := {
  req_model_name : pystr;
  req_text : pystr;
  req_image_id : pystr;
  req_image_base_url : option pystr;
  req_maintain_aspect_ratio : option bool;
  req_config : option Engine.preprocess_config
}.

(** The timing of a response: the timing of the engine, with the time of
    the download added. *)
Record ResponseTiming := {
  engine_timing : option Engine.Timing;
  image_fetch_time : Z
}.

Record TextOnlyInferenceResponse := {
  success : bool;
  generated_text : option pystr;
  model_name : pystr;
  timing : option ResponseTiming;
  error : option pystr;
  device : option pystr;
  image_url : option pystr
}.

Definition failed (model_name error : pystr) (image_url : option pystr)
  : TextOnlyInferenceResponse :=
  {| success := false; generated_text := None; model_name := model_name;
     timing := None; error := Some error; device := None;
     image_url := image_url |}.

Definition generation_failed : pystr := py "テキスト生成に失敗しました".

(** [request.config or {}], with the key maintain_aspect_ratio set from the
    request. *)
Definition preprocess_config_of (request : TextOnlyInferenceRequest)
  : Engine.preprocess_config :=
  {| Engine.maintain_aspect_ratio := default false (req_maintain_aspect_ratio request);
     Engine.return_features :=
       match req_config request with
       | Some config => Engine.return_features config
       | None => false
       end |}.

(** [infer_text_from_image_id].  A base URL that is null has no [endswith],
    and the handler of the outer [try] then answers without an image URL;
    the download is one operation that takes time. *)
Definition infer_text_from_image_id `{Unicode}
    (session_get : pystr -> res HttpResponse) (engine : Engine.t)
    (w : Engine.World) (request : TextOnlyInferenceRequest)
  : TextOnlyInferenceResponse * Engine.World :=
  let start_time := Engine.now w in
  match req_image_base_url request with
  | None =>
    (failed (req_model_name request)
            (py "'NoneType' object has no attribute 'endswith'") None, w)
  | Some base_url =>
    let image_url := build_image_url base_url (req_image_id request) in
    let image_bytes := fetch_image_from_url session_get image_url in
    let w := Engine.tick w in
    match image_bytes with
    | None =>
      (failed (req_model_name request)
              (py "Failed to fetch image from " ++ image_url) (Some image_url), w)
    | Some image_bytes =>
      let fetch_time := (Engine.now w - start_time)%Z in
      let preprocess_config := preprocess_config_of request in
      let '(result, w) :=
        Engine.infer_multimodal engine w (req_model_name request)
          (ImageProcessor.Bytes image_bytes) (req_text request)
          (Some preprocess_config) in
      match result with
      | None =>
        (failed (req_model_name request) (py "Multimodal inference failed")
                (Some image_url), w)
      | Some result =>
        if Engine.success result
        then
          ({| success := true;
              generated_text :=
                Some (default generation_failed (Engine.generated_text result));
              model_name := req_model_name request;
              timing := Some {| engine_timing := Engine.timing result;
                                image_fetch_time := fetch_time |};
              error := None;
              device := Engine.device result;
              image_url := Some image_url |}, w)
        else
          (failed (req_model_name request)
                  (default (py "Unknown inference error") (Engine.error result))
                  (Some image_url), w)
      end
    end
  end.

(** What an endpoint does: it returns a body, or raises an HTTP
    exception. *)
Inductive endpoint_result (A : Type) : Type :=
  | Returns (body : A)
  | HTTPException (status_code : Z) (detail : pystr).
Arguments Returns {A} body.
Arguments HTTPException {A} status_code detail.

Record LoadModelResponse := {
  load_success : bool;
  message : pystr
}.

(** The endpoint [load_model].  The exception of status 400 is raised
    inside the [try], whose handler catches every exception and raises one
    of status 500 with [str(e)] as its detail; [str_of_exception] is the
    conversion of an HTTP exception to a string. *)
Definition load_model (str_of_exception : Z -> pystr -> pystr)
    (engine : Engine.t) (w : Engine.World) (model_name model_path model_type : pystr)
  : endpoint_result LoadModelResponse * Engine.t :=
  let '(success, engine) :=
    Engine.load_model engine w model_name model_path model_type None [] in
  let body : endpoint_result LoadModelResponse :=
    if success
    then Returns {| load_success := true;
                    message := py "Model " ++ model_name ++ py " loaded successfully" |}
    else HTTPException 400 (py "Failed to load model") in
  (match body with
   | Returns r => Returns r
   | HTTPException status_code detail =>
     HTTPException 500 (str_of_exception status_code detail)
   end, engine).

End Server.

(** * The vocabulary of the properties *)

Section ExtractionVocabulary.
Context `{Unicode}.
Import TextOutputProcessor.

(** The outputs that offer no candidate, with the keys compared the way the
    extractor compares them: lowered before the search of the substring. *)
Definition offers_no_candidate (outputs : odict value) : Prop :=
  forall key v, (key, v) ∈ outputs ->
    (key ∉ priority_keys)
    /\ contains (py "text") (lower key) = false
    /\ ~ (contains (py "logit") (lower key) = true /\ is_list_or_array v = true).

(** The spec's condition on the outputs, with the keys taken as they are. *)
Definition no_textual_key (outputs : odict value) : Prop :=
  forall key v, (key, v) ∈ outputs ->
    (key ∉ priority_keys)
    /\ contains (py "text") key = false
    /\ ~ (contains (py "logit") key = true
          /\ is_list_or_array v = true).

End ExtractionVocabulary.

Section ImageVocabulary.
Import ImageProcessor.

(** What the model asks of OpenCV: resizing a colour image that is not
    empty to a size that is not empty gives an image of that size. *)
Definition resizes_as_asked (self : ImageProcessor.t) : Prop :=
  forall (image : array3) (w h : Z),
    (0 < height image)%nat -> (0 < width image)%nat -> channels image = 3%nat ->
    (0 < w)%Z -> (0 < h)%Z ->
    exists r, cv2_resize self image w h = Some r
              /\ height r = Z.to_nat h /\ width r = Z.to_nat w
              /\ channels r = 3%nat.

End ImageVocabulary.

Section EngineVocabulary.
Context `{Unicode}.
Import Engine.

(** A port name is image-like when its lowered form contains one of the
    four substrings. *)
Definition image_like (name : pystr) : Prop :=
  exists pat, pat ∈ image_input_names
    /\ exists pre post, lower name = pre ++ pat ++ post.

Definition names_of (ports : list Port) (names : list pystr) : Prop :=
  Forall2 (fun port name => any_name port = Ok name) ports names.

(** The keys of a processed text. *)
Definition text_keys : list pystr :=
  map py ["input_ids"; "attention_mask"; "token_type_ids"; "text_features"]%string.

(** The two shapes of a returned dict: a success with its timing, or a
    failure with its message and the name of the model (and no timing). *)
Definition well_shaped (model_name : pystr) (r : InferenceResult) : Prop :=
  (success r = true /\ error r = None /\ is_Some (timing r)
   /\ is_Some (result_outputs r))
  \/ (success r = false /\ is_Some (error r) /\ timing r = None
      /\ Engine.model_name r = model_name).

(** What an entry point attempts once its inputs are ready: for the image
    entry point, reading the name of the first port, the invocation by
    position and the naming of the results; for the two others, the
    binding of the ports, the invocation by name and the naming of the
    results.  The first exception ends the attempt. *)
Definition image_attempt (compiled_model : CompiledModel)
    (x : ImageProcessor.tensor4) : res (odict value) :=
  _ ← first_input_name compiled_model;
  result ← run compiled_model (ByPosition [TImage x]);
  collect_outputs (outputs compiled_model) 0 result [].

Definition named_attempt (compiled_model : CompiledModel)
    (bound : res (gmap pystr tensor)) : res (odict value) :=
  bound ← bound;
  result ← run compiled_model (ByName bound);
  collect_outputs (outputs compiled_model) 0 result [].

(** The dict [r] reports the attempt: a success with the named outputs and
    a timing when nothing was raised, and otherwise the failure dict made
    of the message of the exception and the name of the model. *)
Definition reports (model_name : pystr) (attempt : res (odict value))
    (r : InferenceResult) : Prop :=
  match attempt with
  | Ok outs =>
    success r = true /\ error r = None /\ result_outputs r = Some outs
    /\ is_Some (timing r) /\ Engine.model_name r = model_name
  | Raise e => r = failure e model_name
  end.

(** The world after [k] more invocations logged as [entry]. *)
Fixpoint after_calls (k : nat) (entry : pystr * call_arg) (w : World) : World :=
  match k with
  | O => w
  | S k => after_calls k entry (tick (log_call entry w))
  end.

(** The samples of a benchmark of [n] iterations started in the world [w]:
    the durations of the [n] invocations that follow the three of the
    warmup. *)
Definition timed_samples (w : World) (n : nat) : list Z :=
  map (delay w) (seq (steps w + warmup_iterations) n).

(** The two maps of the engine hold the same names. *)
Definition same_names (self : Engine.t) : Prop :=
  dom (models self) = dom (model_configs self).

End EngineVocabulary.

(** * Examples *)

(** An instance of the Unicode tables for running examples: it leaves a
    string that is not ASCII as it is, and puts no character outside ASCII
    into a class. *)
Definition ascii_only : Unicode :=
  {| unicode_upper := fun s => s; unicode_lower := fun s => s;
     unicode_isupper := fun _ => false; unicode_isdigit := fun _ => false;
     unicode_isalnum := fun _ => false |}.

(** Nearest-neighbour resizing, a stand-in for OpenCV in examples. *)
Definition nearest_resize (img : ImageProcessor.array3) (w h : Z)
  : option ImageProcessor.array3 :=
  if (0 <? w)%Z && (0 <? h)%Z
     && (0 <? ImageProcessor.height img)%nat && (0 <? ImageProcessor.width img)%nat
  then Some {| ImageProcessor.height := Z.to_nat h;
               ImageProcessor.width := Z.to_nat w;
               ImageProcessor.channels := ImageProcessor.channels img;
               ImageProcessor.pixel := fun y x c =>
                 ImageProcessor.pixel img
                   (y * ImageProcessor.height img / Z.to_nat h)%nat
                   (x * ImageProcessor.width img / Z.to_nat w)%nat c |}
  else None.

(** An image processor for examples: the default target of 224 by 224 and
    the ImageNet constants, no decoder, nearest-neighbour resizing. *)
Definition example_image_processor : ImageProcessor.t :=
  {| ImageProcessor.target_size := (224, 224)%nat;
     ImageProcessor.mean := ImageProcessor.imagenet_mean;
     ImageProcessor.std := ImageProcessor.imagenet_std;
     ImageProcessor.pil_open := fun _ => None;
     ImageProcessor.cv2_imread := fun _ => None;
     ImageProcessor.cv2_resize := nearest_resize |}.

(** A source of 400 by 100 pixels. *)
Definition example_image : ImageProcessor.array3 :=
  {| ImageProcessor.height := 100; ImageProcessor.width := 400;
     ImageProcessor.channels := 3;
     ImageProcessor.pixel := fun y x c => (Z.of_nat (x + y + c) mod 256)%Z |}.

Definition example_tensor : ImageProcessor.tensor4 :=
  {| ImageProcessor.dims := (1, 3, 224, 224)%nat;
     ImageProcessor.at4 := fun _ _ _ _ => 0%float |}.

(** A world in which every file exists and compiles, every operation takes
    a different time, and the file dynamic.xml compiles to a model whose
    input has a dynamic shape. *)
Definition example_port (name : string) (s : list nat) : Engine.Port :=
  {| Engine.any_name := Ok (py name);
     Engine.port_shape := Ok s;
     Engine.element_type := py "f32" |}.

Definition example_output : ndarray :=
  {| shape := [1; 2]%nat; data := [NFloat 0.5; NFloat 0.25] |}.

Definition example_model : Engine.CompiledModel :=
  {| Engine.inputs := [example_port "input_ids" [1; 8]%nat;
                       example_port "Pixel_Values" [1; 3; 4; 4]%nat;
                       example_port "image_embeds" [1; 4]%nat];
     Engine.outputs := [example_port "embedding" [1; 2]%nat];
     Engine.run := fun _ => Ok (fun _ => Ok example_output) |}.

Definition dynamic_model : Engine.CompiledModel :=
  {| Engine.inputs :=
       [{| Engine.any_name := Ok (py "input_ids");
           Engine.port_shape :=
             Raise (py "get_shape was called on a descriptor::Tensor with dynamic shape");
           Engine.element_type := py "i64" |}];
     Engine.outputs := [example_port "logits" [1; 2]%nat];
     Engine.run := fun _ => Ok (fun _ => Ok example_output) |}.

Definition example_world : Engine.World :=
  {| Engine.now := 1000;
     Engine.steps := 0;
     Engine.delay := fun k => (Z.of_nat k * Z.of_nat k + 5)%Z;
     Engine.path_exists := fun _ => true;
     Engine.pathlib_str := fun p => p;
     Engine.compile_model := fun p _ =>
       if bool_decide (p = py "dynamic.xml") then Some dynamic_model
       else Some example_model;
     Engine.npu_device := py "NPU";
     Engine.draws := 0;
     Engine.randn := fun _ s => Engine.np_ones s;
     Engine.calls := [] |}.

Definition empty_engine : Engine.t :=
  {| Engine.models := ∅;
     Engine.model_configs := ∅;
     Engine.image_processor := example_image_processor;
     Engine.text_processor :=
       {| TextProcessor.max_length := 8; TextProcessor.tokenizer := None |};
     Engine.text_output_processor :=
       {| TextOutputProcessor.tokenizer := None;
          TextOutputProcessor.sample_token := fun _ => Ok (NInt 65) |} |}.

(** The engine after the model vlm has been loaded as a multimodal model. *)
Definition example_info (s : list nat) : Engine.PortInfo :=
  {| Engine.info_shape := s; Engine.info_type := py "f32" |}.

Definition example_config : Engine.ModelConfig :=
  {| Engine.config_type := py "multimodal";
     Engine.config_path := py "vlm.xml";
     Engine.config_inputs :=
       <[py "image_embeds" := example_info [1; 4]%nat]>
         (<[py "Pixel_Values" := example_info [1; 3; 4; 4]%nat]>
            (<[py "input_ids" := example_info [1; 8]%nat]> ∅));
     Engine.config_outputs := <[py "embedding" := example_info [1; 2]%nat]> ∅;
     Engine.config_input_shapes := ∅ |}.

Definition example_engine : Engine.t :=
  {| Engine.models := {[ py "vlm" := example_model ]};
     Engine.model_configs := {[ py "vlm" := example_config ]};
     Engine.image_processor := Engine.image_processor empty_engine;
     Engine.text_processor := Engine.text_processor empty_engine;
     Engine.text_output_processor := Engine.text_output_processor empty_engine |}.

(** An engine with one vision model, whose only port takes the image. *)
Definition vision_model : Engine.CompiledModel :=
  {| Engine.inputs := [example_port "pixel_values" [1; 3; 4; 4]%nat];
     Engine.outputs := [example_port "logits" [1; 2]%nat];
     Engine.run := fun _ => Ok (fun _ => Ok example_output) |}.

Definition vision_engine : Engine.t :=
  {| Engine.models := {[ py "resnet" := vision_model ]};
     Engine.model_configs := ∅;
     Engine.image_processor := Engine.image_processor empty_engine;
     Engine.text_processor := Engine.text_processor empty_engine;
     Engine.text_output_processor := Engine.text_output_processor empty_engine |}.

(** The dummy inputs that the benchmark builds for the model vlm. *)
Definition example_dummy : gmap pystr Engine.tensor :=
  <[py "image_embeds" := Engine.TText (TextProcessor.TArr (Engine.np_ones [1; 4]%nat))]>
    (<[py "Pixel_Values" :=
         Engine.TText (TextProcessor.TArr (Engine.np_ones [1; 3; 4; 4]%nat))]>
       (<[py "input_ids" :=
            Engine.TText (TextProcessor.TArr (Engine.np_ones [1; 8]%nat))]> ∅)).

(** An image server that knows one image, cat.jpg, and answers 404 for
    every other URL. *)
Definition example_session_get (url : pystr) : res Server.HttpResponse :=
  if bool_decide (url = py "http://pi.local/image/cat.jpg")
  then Ok {| Server.status := 200;
             Server.content_type := Some (py "Image/JPEG");
             Server.read := Ok [255; 216; 255] |}
  else Ok {| Server.status := 404;
             Server.content_type := Some (py "text/html");
             Server.read := Ok [] |}.

Definition example_request (image_id : string) : Server.TextOnlyInferenceRequest :=
  {| Server.req_model_name := py "vlm";
     Server.req_text := py "what is this?";
     Server.req_image_id := py image_id;
     Server.req_image_base_url := Some (py "http://pi.local/image");
     Server.req_maintain_aspect_ratio := Some true;
     Server.req_config := None |}.

(** A tensor of four channels, as an RGBA image would give. *)
Definition rgba_tensor : ImageProcessor.tensor4 :=
  {| ImageProcessor.dims := (1, 4, 2, 2)%nat;
     ImageProcessor.at4 := fun _ _ _ _ => 0.5%float |}.

(** * Properties *)

(** ** Lists and ordered dicts *)

Lemma flat_map_all_nil {A B} (f : A -> list B) (l : list A) :
  (forall x, x ∈ l -> f x = []) -> flat_map f l = [].
Proof.
  induction l as [|a l IH]; intros Hf; simpl; [reflexivity|].
  rewrite (Hf a) by apply list_elem_of_here.
  apply IH. intros x Hx. apply Hf. by apply list_elem_of_further.
Qed.

Lemma odict_get_Some_elem {V} (key : pystr) (d : odict V) (v : V) :
  odict_get key d = Some v -> (key, v) ∈ d.
Proof.
  induction d as [|[k w] d IH]; simpl; [discriminate|].
  case_bool_decide as Hk.
  - intros [= ->]. subst k. apply list_elem_of_here.
  - intros Hg. apply list_elem_of_further. by apply IH.
Qed.

(** ** The output text extractor *)

Section Extraction.
Context `{Unicode}.

Import TextOutputProcessor.

Lemma no_candidate_nil (outputs : odict value) :
  offers_no_candidate outputs -> text_candidates outputs = [].
Proof.
  intros Hno. unfold text_candidates.
  rewrite !flat_map_all_nil; [reflexivity| | |].
  - intros [key v] Hin. destruct (Hno key v Hin) as (_ & _ & Hl).
    destruct (contains (py "logit") (lower key)); [|reflexivity].
    destruct (is_list_or_array v); [|reflexivity].
    exfalso. by apply Hl.
  - intros [key v] Hin. destruct (Hno key v Hin) as (_ & Ht & _).
    rewrite Ht. by rewrite andb_false_r.
  - intros key Hkey. destruct (odict_get key outputs) as [v|] eqn:Hg; [|reflexivity].
    apply odict_get_Some_elem in Hg. by destruct (Hno key v Hg) as (Hp & _).
Qed.

Lemma extract_no_candidate (self : TextOutputProcessor.t) (outputs : odict value) :
  offers_no_candidate outputs ->
  extract_text_from_multimodal_output self outputs = extraction_failed.
Proof.
  intros Hno. unfold extract_text_from_multimodal_output.
  by rewrite (no_candidate_nil _ Hno).
Qed.

(** C2: for the outputs {answer: 42, some_logits: [0.1, 5.0, 0.3]} the
    candidates are ranked answer (priority 10) before some_logits
    (priority 1), and the extractor returns the text of answer cleaned,
    42 followed by a full stop. *)
Theorem answer_before_logits (self : TextOutputProcessor.t) :
  let outputs :=
    [(py "answer", VStr (py "42"));
     (py "some_logits", VList (SeqNum [NFloat 0.1; NFloat 5.0; NFloat 0.3]))] in
  sort_desc (text_candidates outputs)
  = [(py "answer", VStr (py "42"), 10%nat);
     (py "some_logits", VList (SeqNum [NFloat 0.1; NFloat 5.0; NFloat 0.3]), 1%nat)]
  /\ extract_text_from_multimodal_output self outputs = py "42."
  /\ clean_generated_text (py "42") = py "42."
  /\ endswith (py ".") (extract_text_from_multimodal_output self outputs) = true.
Proof.
  repeat split; vm_compute; reflexivity.
Qed.

End Extraction.

(** ** The text preprocessor *)

Section Tokenizing.

Import TextProcessor.

Lemma filter_pos_zeros (n : nat) :
  List.filter num_pos (map NInt (replicate n 0%Z)) = [].
Proof. induction n as [|n IH]; simpl; [reflexivity|exact IH]. Qed.

(** C5: with the character codec (no tokenizer) and a length L of at least
    two, the text Hi is tokenized to one row of L ids, 72 and 105 followed
    by zeros, and the fallback decoder maps that row back to Hi. *)
Theorem hi_round_trip (L : nat) (HL : (2 <= L)%nat) :
  let self := {| max_length := L; tokenizer := None |} in
  exists input_ids,
    tokenize_text self (py "Hi") !! py "input_ids" = Some (TArr input_ids)
    /\ shape input_ids = [1%nat; L]
    /\ data input_ids = map NInt ([72; 105] ++ replicate (L - 2) 0)%Z
    /\ length (data input_ids) = L
    /\ decode_tokens self (TokArr input_ids) = py "Hi"
    /\ decode_tokens self (TokList (data input_ids)) = py "Hi".
Proof.
  intros self.
  assert (Hc : clean_text (py "Hi") = [72; 105]) by (vm_compute; reflexivity).
  assert (Hrow : _simple_tokenize self (py "Hi") !! py "input_ids"
                 = Some (TArr (int64_row ([72; 105] ++ replicate (L - 2) 0)%Z))).
  { unfold _simple_tokenize. rewrite lookup_insert_eq, Hc. simpl max_length.
    rewrite (take_ge [72; 105] L) by (simpl; lia).
    simpl map. simpl length.
    destruct (Nat.ltb_spec 2 L) as [Hlt|Hge]; [reflexivity|].
    replace L with 2%nat by lia. reflexivity. }
  assert (Hdec : forall t, tolist t = map NInt ([72; 105] ++ replicate (L - 2) 0)%Z ->
                           decode_tokens self t = py "Hi").
  { intros t Ht. unfold decode_tokens. simpl tokenizer. cbv iota. rewrite Ht.
    rewrite map_app, List.filter_app, filter_pos_zeros. reflexivity. }
  eexists. split; [exact Hrow|].
  repeat split.
  - simpl. rewrite length_replicate. do 2 f_equal. lia.
  - simpl. rewrite length_map, length_replicate. lia.
  - by apply Hdec.
  - by apply Hdec.
Qed.

Lemma hi_round_trip_512 :
  (2 <= 512)%nat /\
  exists input_ids,
    tokenize_text {| max_length := 512; tokenizer := None |} (py "Hi")
      !! py "input_ids" = Some (TArr input_ids)
    /\ shape input_ids = [1%nat; 512%nat]
    /\ data input_ids = map NInt ([72; 105] ++ replicate (512 - 2) 0)%Z
    /\ length (data input_ids) = 512%nat
    /\ decode_tokens {| max_length := 512; tokenizer := None |} (TokArr input_ids)
       = py "Hi"
    /\ decode_tokens {| max_length := 512; tokenizer := None |}
         (TokList (data input_ids)) = py "Hi".
Proof. split; [lia | apply (hi_round_trip 512); lia]. Defined.

(** C6: the text cleaner is not idempotent.  The control character U+0001
    between two spaces is removed after the runs of whitespace have been
    collapsed, which leaves two spaces; cleaning the result again collapses
    them. *)
Theorem clean_text_twice_differs :
  let x := py "a " ++ [1] ++ py " b" in
  clean_text x = py "a  b"
  /\ clean_text (clean_text x) = py "a b"
  /\ clean_text (clean_text x) <> clean_text x.
Proof.
  repeat split; try (vm_compute; reflexivity).
  vm_compute. discriminate.
Qed.

End Tokenizing.

(** ** The image preprocessor *)

Section ImageShape.

Import ImageProcessor.

Lemma assign_slice_shape (result value r : array3) (y0 y1 x0 x1 : Z) :
  assign_slice result y0 y1 x0 x1 value = Some r ->
  height r = height result /\ width r = width result
  /\ channels r = channels result.
Proof.
  unfold assign_slice.
  destruct (slice_bounds (height result) y0 y1) as [ya yb].
  destruct (slice_bounds (width result) x0 x1) as [xa xb].
  destruct (_ && _); [|discriminate].
  intros [= <-]. by simpl.
Qed.

Lemma assign_slice_2d_shape (result value r : array3) (y0 y1 x0 x1 : Z) :
  assign_slice_2d result y0 y1 x0 x1 value = Some r ->
  height r = height result /\ width r = width result
  /\ channels r = channels result.
Proof.
  unfold assign_slice_2d.
  destruct (slice_bounds (height result) y0 y1) as [ya yb].
  destruct (slice_bounds (width result) x0 x1) as [xa xb].
  destruct (_ && _); [|discriminate].
  intros [= <-]. by simpl.
Qed.

Lemma resize_centered_shape (self : ImageProcessor.t) (image r : array3)
    (tw th : nat) (fill : list Z) :
  resize_centered self image (tw, th) fill = Some r ->
  height r = th /\ width r = tw /\ channels r = 3%nat.
Proof.
  unfold resize_centered.
  destruct (_ || _); [discriminate|].
  intros Ha.
  apply bind_Some in Ha as (new_w & _ & Ha).
  apply bind_Some in Ha as (new_h & _ & Ha).
  apply bind_Some in Ha as (resized & _ & Ha).
  destruct (channels resized =? 1)%nat.
  - by apply assign_slice_2d_shape in Ha.
  - by apply assign_slice_shape in Ha.
Qed.

Lemma resize_maintain_aspect_ratio_shape (self : ImageProcessor.t)
    (image : array3) (tw th : nat) (fill : list Z) :
  resizes_as_asked self ->
  (0 < height image)%nat -> (0 < width image)%nat -> channels image = 3%nat ->
  (0 < tw)%nat -> (0 < th)%nat ->
  exists r, resize_maintain_aspect_ratio self image (tw, th) fill = Some r
            /\ height r = th /\ width r = tw /\ channels r = 3%nat.
Proof.
  intros Hcv Hh Hw Hc Htw Hth. unfold resize_maintain_aspect_ratio.
  destruct (resize_centered self image (tw, th) fill) as [r|] eqn:Hr.
  - exists r. split; [reflexivity|]. by apply resize_centered_shape in Hr.
  - simpl. destruct (Hcv image (Z.of_nat tw) (Z.of_nat th)) as (r & Hr' & H1 & H2 & H3);
      [done|done|done|lia|lia|].
    exists r. rewrite !Nat2Z.id in *. done.
Qed.

Lemma preprocess_image_shape (self : ImageProcessor.t) (image : array3)
    (tw th : nat) :
  resizes_as_asked self -> target_size self = (tw, th) ->
  (0 < height image)%nat -> (0 < width image)%nat -> channels image = 3%nat ->
  (0 < tw)%nat -> (0 < th)%nat ->
  exists x, preprocess_image self image true = Some x
            /\ shape4 x = [1; 3; th; tw]%nat.
Proof.
  intros Hcv Ht Hh Hw Hc Htw Hth. unfold preprocess_image. rewrite Ht.
  destruct (Hcv image (Z.of_nat tw) (Z.of_nat th)) as (r & Hr & H1 & H2 & H3);
    [done|done|done|lia|lia|].
  rewrite Hr. simpl. rewrite H3. simpl.
  eexists. split; [reflexivity|].
  unfold shape4. simpl. by rewrite H1, H2, !Nat2Z.id.
Qed.

(** C4: when the image loads, with a positive height and width and three
    channels, and the target size (tw, th) is positive, the pipeline with
    maintain_aspect_ratio returns a tensor of shape [1, 3, th, tw]: the
    target size, whatever the size of the source. *)
Theorem aspect_ratio_tensor_shape (self : ImageProcessor.t)
    (image_input : image_input) (image : array3) (tw th : nat) :
  resizes_as_asked self ->
  target_size self = (tw, th) -> (0 < tw)%nat -> (0 < th)%nat ->
  load_image self image_input = Some image ->
  (0 < height image)%nat -> (0 < width image)%nat -> channels image = 3%nat ->
  exists x, process_for_inference self image_input true = Some x
            /\ shape4 x = [1; 3; th; tw]%nat.
Proof.
  intros Hcv Ht Htw Hth Hload Hh Hw Hc.
  unfold process_for_inference. rewrite Hload. simpl. rewrite Ht.
  destruct (resize_maintain_aspect_ratio_shape self image tw th default_fill_color)
    as (r & Hr & H1 & H2 & H3); [done..|].
  rewrite Hr. simpl.
  apply preprocess_image_shape; [done|done|lia|lia|done|done|done].
Qed.

End ImageShape.

Lemma nearest_resizes_as_asked : resizes_as_asked example_image_processor.
Proof.
  intros image w h Hh Hw Hc Hw' Hh'. simpl. unfold nearest_resize.
  destruct (Z.ltb_spec 0 w); [|lia]. destruct (Z.ltb_spec 0 h); [|lia].
  destruct (Nat.ltb_spec 0 (ImageProcessor.height image)); [|lia].
  destruct (Nat.ltb_spec 0 (ImageProcessor.width image)); [|lia].
  simpl. eexists. split; [reflexivity|]. by simpl.
Defined.

Lemma aspect_ratio_tensor_shape_example :
  exists x,
    ImageProcessor.process_for_inference example_image_processor
      (ImageProcessor.Array example_image) true = Some x
    /\ ImageProcessor.shape4 x = [1; 3; 224; 224]%nat.
Proof.
  apply (aspect_ratio_tensor_shape example_image_processor
           (ImageProcessor.Array example_image) example_image 224 224).
  - exact nearest_resizes_as_asked.
  - reflexivity.
  - lia.
  - lia.
  - reflexivity.
  - simpl; lia.
  - simpl; lia.
  - reflexivity.
Defined.

(** ** Binding tensors to input ports *)

Lemma startswith_spec (p s : pystr) :
  startswith p s = true <-> exists post, s = p ++ post.
Proof.
  revert s. induction p as [|a p IH]; intros s; simpl.
  - split; [intros _; by exists s|done].
  - destruct s as [|b s].
    + split; [discriminate|]. intros [post Hp]. discriminate.
    + rewrite andb_true_iff, IH, N.eqb_eq. split.
      * intros [-> [post ->]]. by exists post.
      * intros [post [= -> ->]]. split; [done|by exists post].
Qed.

Lemma contains_spec (sub s : pystr) :
  contains sub s = true <-> exists pre post, s = pre ++ sub ++ post.
Proof.
  induction s as [|c s IH]; simpl; rewrite orb_true_iff, startswith_spec.
  - split.
    + intros [[post Hp]|]; [|discriminate]. by exists [], post.
    + intros (pre & post & Hs). left.
      destruct pre; [by exists post|discriminate].
  - rewrite IH. split.
    + intros [[post Hp]|(pre & post & ->)].
      * by exists [], post.
      * by exists (c :: pre), post.
    + intros (pre & post & Hs). destruct pre as [|a pre].
      * left. by exists post.
      * right. injection Hs as -> ->. by exists pre, post.
Qed.

Section Binding.
Context `{Unicode}.

Import Engine.

Lemma is_image_input_spec (name : pystr) :
  is_image_input name = true <-> image_like name.
Proof.
  unfold is_image_input, image_like. rewrite existsb_exists. split.
  - intros (pat & Hin & Hc). exists pat. split; [by apply list_elem_of_In|].
    by apply contains_spec.
  - intros (pat & Hin & Hc). exists pat. split; [by apply list_elem_of_In|].
    by apply contains_spec.
Qed.

Lemma bind_image_find (ports : list Port) (names : list pystr) (x : tensor)
    (inputs : gmap pystr tensor) :
  names_of ports names ->
  bind_image ports x inputs
  = Ok match List.find is_image_input names with
       | Some name => <[name := x]> inputs
       | None => inputs
       end.
Proof.
  induction 1 as [|port name ports names Hn _ IH]; simpl; [reflexivity|].
  rewrite Hn. simpl. destruct (is_image_input name); [reflexivity|exact IH].
Qed.

Lemma bind_text_lookup (ports : list Port) (names : list pystr)
    (processed_text : gmap pystr TextProcessor.tvalue) (inputs : gmap pystr tensor) :
  names_of ports names ->
  exists bound, bind_text ports processed_text inputs = Ok bound
    /\ forall k, bound !! k = inputs !! k
                 \/ exists v, processed_text !! k = Some v /\ bound !! k = Some (TText v).
Proof.
  intros Hn. revert inputs.
  induction Hn as [|port name ports names Hn _ IH]; intros inputs; simpl.
  - exists inputs. split; [reflexivity|]. by left.
  - rewrite Hn. simpl.
    destruct (IH match processed_text !! name with
                 | Some v => <[name := TText v]> inputs
                 | None => inputs
                 end) as (bound & -> & Hb).
    exists bound. split; [reflexivity|]. intros k.
    destruct (Hb k) as [Hk|Hk]; [|by right]. rewrite Hk.
    destruct (processed_text !! name) as [v|] eqn:Hv; [|by left].
    destruct (decide (name = k)) as [->|Hne].
    + right. exists v. by rewrite lookup_insert_eq.
    + left. by rewrite lookup_insert_ne.
Qed.

Lemma simple_tokenize_keys (tp : TextProcessor.t) (text k : pystr) :
  is_Some (TextProcessor._simple_tokenize tp text !! k) -> k ∈ text_keys.
Proof.
  unfold TextProcessor._simple_tokenize. intros [v Hv].
  apply lookup_insert_Some in Hv as [[<- _]|[_ Hv]]; [set_solver|].
  apply lookup_insert_Some in Hv as [[<- _]|[_ Hv]]; [set_solver|].
  by rewrite lookup_empty in Hv.
Qed.

Lemma tokenize_text_keys (tp : TextProcessor.t) (text k : pystr) :
  is_Some (TextProcessor.tokenize_text tp text !! k) -> k ∈ text_keys.
Proof.
  unfold TextProcessor.tokenize_text.
  destruct (TextProcessor.tokenizer tp) as [tok|]; [|apply simple_tokenize_keys].
  destruct (tok_call tok _ true true) as [encoded|]; [|apply simple_tokenize_keys].
  destruct (encoded !! py "input_ids"); [|apply simple_tokenize_keys].
  intros [v Hv].
  destruct (encoded !! py "token_type_ids");
    [apply lookup_insert_Some in Hv as [[<- _]|[_ Hv]]; [set_solver|]|];
    (destruct (encoded !! py "attention_mask");
      [apply lookup_insert_Some in Hv as [[<- _]|[_ Hv]]; [set_solver|]|]);
    (apply lookup_insert_Some in Hv as [[<- _]|[_ Hv]]; [set_solver|]);
    by rewrite lookup_empty in Hv.
Qed.

Lemma process_for_inference_keys (tp : TextProcessor.t) (text k : pystr)
    (return_features : bool) :
  is_Some (TextProcessor.process_for_inference tp text return_features !! k) ->
  k ∈ text_keys.
Proof.
  unfold TextProcessor.process_for_inference.
  destruct return_features; [|apply tokenize_text_keys].
  intros [v Hv].
  apply lookup_insert_Some in Hv as [[<- _]|[_ Hv]]; [set_solver|].
  apply (tokenize_text_keys tp text). by exists v.
Qed.

Lemma text_key_not_image (k : pystr) : k ∈ text_keys -> is_image_input k = false.
Proof.
  unfold text_keys. simpl. rewrite !elem_of_cons, elem_of_nil.
  intros [->|[->|[->|[->|[]]]]]; vm_compute; reflexivity.
Qed.

Lemma find_first (names : list pystr) (i : nat) (name : pystr) :
  names !! i = Some name -> is_image_input name = true ->
  (forall j other, (j < i)%nat -> names !! j = Some other ->
                   is_image_input other = false) ->
  List.find is_image_input names = Some name.
Proof.
  revert i. induction names as [|a names IH]; intros i Hi Hm Hfirst; [done|].
  destruct i as [|i]; simpl in *.
  - injection Hi as ->. by rewrite Hm.
  - rewrite (Hfirst 0%nat a) by (done || lia).
    apply (IH i); [done|done|].
    intros j other Hj Ho. apply (Hfirst (S j) other); [lia|done].
Qed.

(** C7: when every port name can be read, the binding of [infer_multimodal]
    succeeds; the image tensor is bound under the name of the first port
    whose name is image-like, and under no other name; without such a port
    it is bound under no name. *)
Theorem image_bound_to_first_match (tp : TextProcessor.t) (text : pystr)
    (return_features : bool) (ports : list Port) (names : list pystr)
    (x : ImageProcessor.tensor4) :
  names_of ports names ->
  exists inputs,
    bind_multimodal ports x
      (TextProcessor.process_for_inference tp text return_features) = Ok inputs
    /\ (forall i name,
          names !! i = Some name -> image_like name ->
          (forall j other, (j < i)%nat -> names !! j = Some other ->
                           ~ image_like other) ->
          inputs !! name = Some (TImage x)
          /\ forall k y, inputs !! k = Some (TImage y) -> k = name)
    /\ ((forall name, name ∈ names -> ~ image_like name) ->
        forall k y, inputs !! k <> Some (TImage y)).
Proof.
  intros Hn. unfold bind_multimodal.
  rewrite (bind_image_find ports names _ _ Hn). simpl.
  set (pt := TextProcessor.process_for_inference tp text return_features).
  destruct (bind_text_lookup ports names pt
              match List.find is_image_input names with
              | Some name => <[name := TImage x]> ∅
              | None => ∅
              end Hn) as (inputs & Hb & Hl).
  exists inputs. split; [exact Hb|]. split.
  - intros i name Hi Hlike Hfirst.
    rewrite (find_first names i name) in Hl; [|done|by apply is_image_input_spec|].
    2:{ intros j other Hj Ho. destruct (is_image_input other) eqn:Hm; [|done].
        exfalso. apply (Hfirst j other Hj Ho). by apply is_image_input_spec. }
    split.
    + destruct (Hl name) as [Hk|(v & Hv & _)].
      * by rewrite Hk, lookup_insert_eq.
      * assert (is_image_input name = false) as Hf
          by (apply text_key_not_image, (process_for_inference_keys tp text _ return_features); by exists v).
        apply is_image_input_spec in Hlike. congruence.
    + intros k y Hk. destruct (Hl k) as [Hk'|(v & _ & Hk')]; [|congruence].
      rewrite Hk in Hk'. destruct (decide (name = k)) as [->|Hne]; [done|].
      by rewrite lookup_insert_ne, lookup_empty in Hk'.
  - intros Hnone k y Hk.
    assert (List.find is_image_input names = None) as Hf.
    { destruct (List.find is_image_input names) as [name|] eqn:Hfind; [|done].
      apply find_some in Hfind as [Hin Hm]. exfalso.
      apply (Hnone name); [by apply list_elem_of_In|by apply is_image_input_spec]. }
    rewrite Hf in Hl. destruct (Hl k) as [Hk'|(v & _ & Hk')]; [|congruence].
    by rewrite Hk, lookup_empty in Hk'.
Qed.

End Binding.

(** ** The inference entry points *)

Section EntryPoints.
Context `{Unicode}.

Import Engine.

Lemma process_for_inference_not_empty (tp : TextProcessor.t) (text : pystr)
    (return_features : bool) :
  TextProcessor.process_for_inference tp text return_features <> ∅.
Proof.
  unfold TextProcessor.process_for_inference.
  destruct return_features; [apply insert_non_empty|].
  unfold TextProcessor.tokenize_text, TextProcessor._simple_tokenize.
  repeat case_match; apply insert_non_empty.
Qed.

(** C10: [infer_image] calls the model with a list of one element, the
    preprocessed image, whatever the ports of the model are called (one
    port must exist, and its name be readable); [infer_multimodal] calls it
    with the dict that the search of an image-like port name builds. *)
Theorem image_passed_by_position (self : Engine.t) (w : World)
    (model_name : pystr) (compiled_model : CompiledModel)
    (image_input : ImageProcessor.image_input)
    (preprocess_config : option preprocess_config)
    (x : ImageProcessor.tensor4) :
  models self !! model_name = Some compiled_model ->
  ImageProcessor.process_for_inference (image_processor self) image_input
    (maintain_aspect_ratio (config_or_default preprocess_config)) = Some x ->
  (forall first, first_input_name compiled_model = Ok first ->
     calls (snd (infer_image self w model_name image_input preprocess_config))
     = calls w ++ [(model_name, ByPosition [TImage x])])
  /\ (forall text_input bound,
        bind_multimodal (inputs compiled_model) x
          (TextProcessor.process_for_inference (text_processor self) text_input
             (return_features (config_or_default preprocess_config))) = Ok bound ->
        calls (snd (infer_multimodal self w model_name image_input text_input
                                     preprocess_config))
        = calls w ++ [(model_name, ByName bound)]).
Proof.
  intros Hm Hx. split.
  - intros first Hfirst. unfold infer_image. rewrite Hm, Hx, Hfirst.
    unfold invoke, finish.
    destruct (run compiled_model _) as [result|e]; simpl; [|reflexivity].
    destruct (collect_outputs _ _ _ _); reflexivity.
  - intros text_input bound Hb. unfold infer_multimodal, run_multimodal.
    rewrite Hm, Hx.
    rewrite bool_decide_eq_false_2 by apply process_for_inference_not_empty.
    rewrite Hb. unfold invoke, finish.
    destruct (run compiled_model _) as [result|e]; simpl; [|reflexivity].
    destruct (collect_outputs _ _ _ _); reflexivity.
Qed.

Lemma inference_outcomes (self : Engine.t) (w : World)
    (model_name : pystr) (image_input : ImageProcessor.image_input)
    (text_input : pystr) (preprocess_config : option preprocess_config) :
  let config := config_or_default preprocess_config in
  let processed_image :=
    ImageProcessor.process_for_inference (image_processor self) image_input
      (maintain_aspect_ratio config) in
  let processed_text :=
    TextProcessor.process_for_inference (text_processor self) text_input
      (return_features config) in
  match fst (infer_image self w model_name image_input preprocess_config) with
  | None => models self !! model_name = None \/ processed_image = None
  | Some r => is_Some (models self !! model_name) /\ is_Some processed_image
              /\ well_shaped model_name r
  end
  /\ match fst (infer_text self w model_name text_input preprocess_config) with
     | None => models self !! model_name = None
               \/ exists compiled_model,
                    models self !! model_name = Some compiled_model
                    /\ bind_text_ports (inputs compiled_model) processed_text ∅
                       = Ok ∅
     | Some r => is_Some (models self !! model_name) /\ well_shaped model_name r
     end
  /\ match fst (infer_multimodal self w model_name image_input text_input
                                preprocess_config) with
     | None => models self !! model_name = None \/ processed_image = None
     | Some r => is_Some (models self !! model_name) /\ is_Some processed_image
                 /\ well_shaped model_name r
     end.
Proof.
  intros config processed_image processed_text.
  unfold infer_image, infer_text, infer_multimodal, run_multimodal.
  fold config. fold processed_image. fold processed_text.
  assert (Hne : processed_text <> ∅) by apply process_for_inference_not_empty.
  clearbody processed_image processed_text.
  destruct (models self !! model_name) as [compiled_model|] eqn:Hm;
    [|repeat split; left; reflexivity].
  unfold invoke, finish.
  split; [|split].
  - destruct processed_image as [x|]; simpl; [|by right].
    destruct (first_input_name compiled_model) as [first|e]; simpl;
      [|by (repeat split; try by eexists); right].
    destruct (run compiled_model _) as [result|e]; simpl;
      [|by (repeat split; try by eexists); right].
    destruct (collect_outputs _ _ _ _) as [outs|e]; simpl;
      (repeat split; try by eexists); [left|right]; by simpl.
  - destruct (bind_text_ports _ _ _) as [bound|e] eqn:Hb; simpl;
      [|by (repeat split; try by eexists); right].
    case_bool_decide as He; simpl.
    { right. exists compiled_model. split; [reflexivity|]. by rewrite Hb, He. }
    destruct (run compiled_model _) as [result|e]; simpl;
      [|by (repeat split; try by eexists); right].
    destruct (collect_outputs _ _ _ _) as [outs|e]; simpl;
      (repeat split; try by eexists); [left|right]; by simpl.
  - destruct processed_image as [x|]; simpl; [|by right].
    rewrite bool_decide_eq_false_2 by exact Hne.
    destruct (bind_multimodal _ _ _) as [bound|e]; simpl;
      [|by (repeat split; try by eexists); right].
    destruct (run compiled_model _) as [result|e]; simpl;
      [|by (repeat split; try by eexists); right].
    destruct (collect_outputs _ _ _ _) as [outs|e]; simpl;
      (repeat split; try by eexists); [left|right]; by simpl.
Qed.

Lemma inference_cases (self : Engine.t) (w : World)
    (model_name : pystr) (image_input : ImageProcessor.image_input)
    (text_input : pystr) (preprocess_config : option preprocess_config) :
  let config := config_or_default preprocess_config in
  let processed_image :=
    ImageProcessor.process_for_inference (image_processor self) image_input
      (maintain_aspect_ratio config) in
  let processed_text :=
    TextProcessor.process_for_inference (text_processor self) text_input
      (return_features config) in
  match models self !! model_name with
  | None =>
    fst (infer_image self w model_name image_input preprocess_config) = None
    /\ fst (infer_text self w model_name text_input preprocess_config) = None
    /\ fst (infer_multimodal self w model_name image_input text_input
                             preprocess_config) = None
  | Some compiled_model =>
    match processed_image with
    | None =>
      fst (infer_image self w model_name image_input preprocess_config) = None
      /\ fst (infer_multimodal self w model_name image_input text_input
                               preprocess_config) = None
    | Some x =>
      (exists r,
         fst (infer_image self w model_name image_input preprocess_config) = Some r
         /\ reports model_name (image_attempt compiled_model x) r)
      /\ (exists r,
            fst (infer_multimodal self w model_name image_input text_input
                                  preprocess_config) = Some r
            /\ reports model_name
                 (named_attempt compiled_model
                    (bind_multimodal (inputs compiled_model) x processed_text)) r)
    end
    /\ match bind_text_ports (inputs compiled_model) processed_text ∅ with
       | Ok bound =>
         if bool_decide (bound = ∅)
         then fst (infer_text self w model_name text_input preprocess_config) = None
         else exists r,
                fst (infer_text self w model_name text_input preprocess_config)
                = Some r
                /\ reports model_name (named_attempt compiled_model (Ok bound)) r
       | Raise e =>
         fst (infer_text self w model_name text_input preprocess_config)
         = Some (failure e model_name)
       end
  end.
Proof.
  intros config processed_image processed_text.
  unfold infer_image, infer_text, infer_multimodal, run_multimodal.
  fold config. fold processed_image. fold processed_text.
  assert (Hne : processed_text <> ∅) by apply process_for_inference_not_empty.
  clearbody processed_image processed_text.
  destruct (models self !! model_name) as [compiled_model|] eqn:Hm;
    [|repeat split; reflexivity].
  unfold invoke, finish, reports, image_attempt, named_attempt.
  split.
  - destruct processed_image as [x|]; simpl; [|split; reflexivity].
    rewrite bool_decide_eq_false_2 by exact Hne. split.
    + destruct (first_input_name compiled_model) as [first|e]; simpl;
        [|eexists; split; reflexivity].
      destruct (run compiled_model _) as [result|e]; simpl;
        [|eexists; split; reflexivity].
      destruct (collect_outputs _ _ _ _) as [outs|e]; simpl;
        eexists; (split; [reflexivity|]); [|reflexivity].
      simpl. repeat split. by eexists.
    + destruct (bind_multimodal _ _ _) as [bound|e]; simpl;
        [|eexists; split; reflexivity].
      destruct (run compiled_model _) as [result|e]; simpl;
        [|eexists; split; reflexivity].
      destruct (collect_outputs _ _ _ _) as [outs|e]; simpl;
        eexists; (split; [reflexivity|]); [|reflexivity].
      simpl. repeat split. by eexists.
  - destruct (bind_text_ports _ _ _) as [bound|e]; simpl; [|reflexivity].
    case_bool_decide; simpl; [reflexivity|].
    destruct (run compiled_model _) as [result|e]; simpl;
      [|eexists; split; reflexivity].
    destruct (collect_outputs _ _ _ _) as [outs|e]; simpl;
      eexists; (split; [reflexivity|]); [|reflexivity].
    simpl. repeat split. by eexists.
Qed.

(** C1, as the code has it: an entry point returns nothing at all when the
    model is not loaded, when the image cannot be preprocessed (image and
    multimodal) or when no input port is bound (text), and in these cases
    only; every other call returns a dict, which is a success with the
    named outputs and its timing when binding, invocation and naming of
    the outputs raise nothing, and otherwise the failure made of the
    message of the exception and the model name, with no timing. *)
Theorem inference_returns_none_or_dict (self : Engine.t) (w : World)
    (model_name : pystr) (image_input : ImageProcessor.image_input)
    (text_input : pystr) (preprocess_config : option preprocess_config) :
  let config := config_or_default preprocess_config in
  let processed_image :=
    ImageProcessor.process_for_inference (image_processor self) image_input
      (maintain_aspect_ratio config) in
  let processed_text :=
    TextProcessor.process_for_inference (text_processor self) text_input
      (return_features config) in
  (match fst (infer_image self w model_name image_input preprocess_config) with
   | None => models self !! model_name = None \/ processed_image = None
   | Some r => is_Some (models self !! model_name) /\ is_Some processed_image
               /\ well_shaped model_name r
   end
   /\ match fst (infer_text self w model_name text_input preprocess_config) with
      | None => models self !! model_name = None
                \/ exists compiled_model,
                     models self !! model_name = Some compiled_model
                     /\ bind_text_ports (inputs compiled_model) processed_text ∅
                        = Ok ∅
      | Some r => is_Some (models self !! model_name) /\ well_shaped model_name r
      end
   /\ match fst (infer_multimodal self w model_name image_input text_input
                                 preprocess_config) with
      | None => models self !! model_name = None \/ processed_image = None
      | Some r => is_Some (models self !! model_name) /\ is_Some processed_image
                  /\ well_shaped model_name r
      end)
  /\ (match models self !! model_name with
       | None =>
         fst (infer_image self w model_name image_input preprocess_config) = None
         /\ fst (infer_text self w model_name text_input preprocess_config) = None
         /\ fst (infer_multimodal self w model_name image_input text_input
                                  preprocess_config) = None
       | Some compiled_model =>
         match processed_image with
         | None =>
           fst (infer_image self w model_name image_input preprocess_config) = None
           /\ fst (infer_multimodal self w model_name image_input text_input
                                    preprocess_config) = None
         | Some x =>
           (exists r,
              fst (infer_image self w model_name image_input preprocess_config) = Some r
              /\ reports model_name (image_attempt compiled_model x) r)
           /\ (exists r,
                 fst (infer_multimodal self w model_name image_input text_input
                                       preprocess_config) = Some r
                 /\ reports model_name
                      (named_attempt compiled_model
                         (bind_multimodal (inputs compiled_model) x processed_text)) r)
         end
         /\ match bind_text_ports (inputs compiled_model) processed_text ∅ with
            | Ok bound =>
              if bool_decide (bound = ∅)
              then fst (infer_text self w model_name text_input preprocess_config) = None
              else exists r,
                     fst (infer_text self w model_name text_input preprocess_config)
                     = Some r
                     /\ reports model_name (named_attempt compiled_model (Ok bound)) r
            | Raise e =>
              fst (infer_text self w model_name text_input preprocess_config)
              = Some (failure e model_name)
            end
       end).
Proof.
  intros config processed_image processed_text. split.
  - apply inference_outcomes.
  - apply inference_cases.
Qed.

(** C3, with the keys compared as the extractor compares them (lowered):
    for outputs that offer no candidate the extractor returns the sentinel,
    and a multimodal inference that got as far as these outputs returns
    them in a dict with success set. *)
Theorem extraction_failure_is_soft (self : Engine.t) (outputs : odict value) :
  offers_no_candidate outputs ->
  TextOutputProcessor.extract_text_from_multimodal_output
    (text_output_processor self) outputs = TextOutputProcessor.extraction_failed
  /\ forall w model_name compiled_model image_input text_input preprocess_config
            timing x w',
       models self !! model_name = Some compiled_model ->
       run_multimodal self w model_name compiled_model image_input text_input
                      preprocess_config
       = (Ok (Done (outputs, timing, x)), w') ->
       exists r,
         infer_multimodal self w model_name image_input text_input
                          preprocess_config = (Some r, w')
         /\ success r = true /\ error r = None
         /\ result_outputs r = Some outputs.
Proof.
  intros Hno. split; [by apply extract_no_candidate|].
  intros w model_name compiled_model image_input text_input preprocess_config
         timing x w' Hm Hrun.
  unfold infer_multimodal. rewrite Hm, Hrun. simpl.
  eexists. split; [reflexivity|]. by simpl.
Qed.

End EntryPoints.

(** ** The benchmark *)

Section Benchmark.

Import Engine.

Lemma after_calls_fields (k : nat) (entry : pystr * call_arg) (w : World) :
  steps (after_calls k entry w) = (steps w + k)%nat
  /\ delay (after_calls k entry w) = delay w
  /\ calls (after_calls k entry w) = calls w ++ replicate k entry
  /\ npu_device (after_calls k entry w) = npu_device w.
Proof.
  revert w. induction k as [|k IH]; intros w; simpl.
  - by rewrite Nat.add_0_r, app_nil_r.
  - destruct (IH (tick (log_call entry w))) as (-> & -> & -> & ->). simpl.
    repeat split; [lia|]. by rewrite <- app_assoc.
Qed.

Lemma warmup_runs (n : nat) (model_name : pystr) (compiled_model : CompiledModel)
    (arg : call_arg) (w : World) (out : nat -> res ndarray) :
  run compiled_model arg = Ok out ->
  warmup n model_name compiled_model arg w
  = (Ok (), after_calls n (model_name, arg) w).
Proof.
  intros Hrun. revert w. induction n as [|n IH]; intros w; simpl; [reflexivity|].
  rewrite Hrun. apply IH.
Qed.

Lemma timed_runs_samples (n : nat) (model_name : pystr)
    (compiled_model : CompiledModel) (arg : call_arg) (w : World)
    (times : list Z) (out : nat -> res ndarray) :
  run compiled_model arg = Ok out ->
  timed_runs n model_name compiled_model arg w times
  = (Ok (times ++ map (delay w) (seq (steps w) n)),
     after_calls n (model_name, arg) w).
Proof.
  intros Hrun. revert w times.
  induction n as [|n IH]; intros w times; simpl; [by rewrite app_nil_r|].
  rewrite Hrun, IH. simpl. rewrite <- app_assoc. simpl.
  do 4 f_equal. lia.
Qed.

Lemma dummy_inputs_world (ports : list Port) (input_type : pystr) (w w1 : World)
    (acc dummy : gmap pystr tensor) :
  dummy_inputs ports input_type w acc = (Ok dummy, w1) ->
  steps w1 = steps w /\ delay w1 = delay w /\ calls w1 = calls w
  /\ npu_device w1 = npu_device w
  /\ forall acc', exists r, port_shapes ports acc' = Ok r.
Proof.
  revert w acc. induction ports as [|port ports IH]; intros w acc; simpl.
  - intros [= <- <-]. repeat split. intros acc'. by exists acc'.
  - destruct (any_name port) as [name|e]; [|discriminate].
    destruct (port_shape port) as [s|e]; [|discriminate].
    intros Hd.
    assert (exists w0 acc0, dummy_inputs ports input_type w0 acc0 = (Ok dummy, w1)
                            /\ steps w0 = steps w /\ delay w0 = delay w
                            /\ calls w0 = calls w /\ npu_device w0 = npu_device w)
      as (w0 & acc0 & Hd0 & <- & <- & <- & <-).
    { destruct (bool_decide _).
      - destruct s; [discriminate|]. by eexists (draw w), _.
      - by eexists w, _. }
    destruct (IH _ _ Hd0) as (? & ? & ? & ? & Hs).
    repeat split; [done..|]. intros acc'. simpl. apply Hs.
Qed.

Lemma foldr_min_spec (x : Z) (rest : list Z) :
  foldr Z.min x rest ∈ x :: rest
  /\ forall s, s ∈ x :: rest -> (foldr Z.min x rest <= s)%Z.
Proof.
  induction rest as [|a rest [IHin IHle]]; simpl.
  - split; [apply list_elem_of_here|].
    intros s Hs. apply list_elem_of_singleton in Hs. lia.
  - split.
    + rewrite !elem_of_cons in *.
      destruct (Z.min_spec a (foldr Z.min x rest)) as [[_ ->]|[_ ->]]; tauto.
    + intros s Hs. rewrite !elem_of_cons in Hs.
      assert (s = a \/ s ∈ x :: rest) as [->|Hs']
        by (rewrite elem_of_cons; tauto); [lia|].
      specialize (IHle s Hs'). lia.
Qed.

Lemma foldr_max_spec (x : Z) (rest : list Z) :
  foldr Z.max x rest ∈ x :: rest
  /\ forall s, s ∈ x :: rest -> (s <= foldr Z.max x rest)%Z.
Proof.
  induction rest as [|a rest [IHin IHle]]; simpl.
  - split; [apply list_elem_of_here|].
    intros s Hs. apply list_elem_of_singleton in Hs. lia.
  - split.
    + rewrite !elem_of_cons in *.
      destruct (Z.max_spec a (foldr Z.max x rest)) as [[_ ->]|[_ ->]]; tauto.
    + intros s Hs. rewrite !elem_of_cons in Hs.
      assert (s = a \/ s ∈ x :: rest) as [->|Hs']
        by (rewrite elem_of_cons; tauto); [lia|].
      specialize (IHle s Hs'). lia.
Qed.

Lemma benchmark_report (self : Engine.t) (w w1 : World)
    (model_name input_type : pystr) (compiled_model : CompiledModel)
    (model_config : ModelConfig) (dummy : gmap pystr tensor)
    (out : nat -> res ndarray) (n : nat) :
  models self !! model_name = Some compiled_model ->
  model_configs self !! model_name = Some model_config ->
  dummy_inputs (inputs compiled_model) input_type w ∅ = (Ok dummy, w1) ->
  run compiled_model (ByName dummy) = Ok out ->
  (0 < n)%nat ->
  exists r w',
    benchmark_model self w model_name input_type (Z.of_nat n) = (Some r, w')
    /\ calls w' = calls w
                  ++ replicate (warmup_iterations + n) (model_name, ByName dummy)
    /\ timing_stats_of (timed_samples w n) = Ok (timing_stats r).
Proof.
  intros Hm Hc Hd Hrun Hn. unfold benchmark_model. rewrite Hm, Hc, Hd.
  rewrite (warmup_runs _ _ _ _ _ out Hrun).
  rewrite (timed_runs_samples _ _ _ _ _ _ out Hrun), Nat2Z.id.
  destruct (dummy_inputs_world _ _ _ _ _ _ Hd) as (Hs & Hdl & Hcl & _ & Hp).
  destruct (Hp ∅) as [shapes ->].
  destruct (after_calls_fields warmup_iterations (model_name, ByName dummy) w1)
    as (Hs3 & Hd3 & Hc3 & _).
  rewrite Hs3, Hd3, Hs, Hdl, app_nil_l.
  change (map (delay w) (seq (steps w + warmup_iterations) n))
    with (timed_samples w n).
  destruct (timing_stats_of (timed_samples w n)) as [stats|e] eqn:Hst.
  2:{ unfold timed_samples in Hst. destruct n; [lia|]. simpl in Hst. discriminate. }
  cbn [mbind res_bind mret res_ret to_option]. rewrite Hst.
  cbn [mbind res_bind mret res_ret to_option].
  eexists _, _. split; [reflexivity|]. split; [|reflexivity].
  destruct (after_calls_fields n (model_name, ByName dummy)
              (after_calls warmup_iterations (model_name, ByName dummy) w1))
    as (_ & _ & -> & _).
  rewrite Hc3, Hcl, <- app_assoc. by rewrite replicate_add.
Qed.

(** C8: a benchmark of 10 iterations invokes the model 13 times; the
    statistics it reports are those of the 10 samples that follow the
    3 invocations of the warmup: their mean, their minimum, their maximum
    and the inverse of the mean.  A world that differs only in the time
    that the warmup takes gives the same statistics. *)
Theorem benchmark_excludes_warmup (self : Engine.t) (w w1 : World)
    (model_name input_type : pystr) (compiled_model : CompiledModel)
    (model_config : ModelConfig) (dummy : gmap pystr tensor)
    (out : nat -> res ndarray) :
  models self !! model_name = Some compiled_model ->
  model_configs self !! model_name = Some model_config ->
  dummy_inputs (inputs compiled_model) input_type w ∅ = (Ok dummy, w1) ->
  run compiled_model (ByName dummy) = Ok out ->
  let samples := map (delay w) (seq (steps w + 3) 10) in
  exists r w',
    benchmark_model self w model_name input_type 10 = (Some r, w')
    /\ calls w' = calls w ++ replicate 13 (model_name, ByName dummy)
    /\ length samples = 10%nat
    /\ mean_time (timing_stats r) = (inject_Z (sumZ samples) / inject_Z 10)%Q
    /\ min_time (timing_stats r) ∈ samples
    /\ (forall s, s ∈ samples -> (min_time (timing_stats r) <= s)%Z)
    /\ max_time (timing_stats r) ∈ samples
    /\ (forall s, s ∈ samples -> (s <= max_time (timing_stats r))%Z)
    /\ fps (timing_stats r)
       = (if (sumZ samples =? 0)%Z then Infinite
          else Finite (1 / mean_time (timing_stats r))%Q)
    /\ forall v v1 dummy' out',
         steps v = steps w ->
         (forall i, (steps w + 3 <= i)%nat -> delay v i = delay w i) ->
         dummy_inputs (inputs compiled_model) input_type v ∅ = (Ok dummy', v1) ->
         run compiled_model (ByName dummy') = Ok out' ->
         exists r' v',
           benchmark_model self v model_name input_type 10 = (Some r', v')
           /\ timing_stats r' = timing_stats r.
Proof.
  intros Hm Hc Hd Hrun samples.
  destruct (benchmark_report self w w1 model_name input_type compiled_model
              model_config dummy out 10 Hm Hc Hd Hrun) as (r & w' & Hb & Hcalls & Hst);
    [lia|].
  exists r, w'. split; [exact Hb|]. split; [exact Hcalls|].
  change (timed_samples w 10) with samples in Hst.
  assert (Hlen : length samples = 10%nat)
    by (unfold samples; by rewrite length_map, length_seq).
  destruct samples as [|x rest] eqn:Hsamples; [discriminate|].
  injection Hst as Hst. rewrite <- Hst. simpl mean_time. simpl min_time.
  simpl max_time. simpl fps.
  split; [exact Hlen|].
  split; [unfold np_mean; by rewrite Hlen|].
  split; [apply foldr_min_spec|]. split; [apply foldr_min_spec|].
  split; [apply foldr_max_spec|]. split; [apply foldr_max_spec|].
  split; [reflexivity|].
  intros v v1 dummy' out' Hsteps Hdelay Hd' Hrun'.
  destruct (benchmark_report self v v1 model_name input_type compiled_model
              model_config dummy' out' 10 Hm Hc Hd' Hrun') as (r' & v' & Hb' & _ & Hst');
    [lia|].
  exists r', v'. split; [exact Hb'|].
  assert (timed_samples v 10 = x :: rest) as Heq.
  { rewrite <- Hsamples. unfold timed_samples, samples. rewrite Hsteps.
    apply map_ext_in. intros i Hi. apply in_seq in Hi. apply Hdelay.
    unfold warmup_iterations in Hi. lia. }
  rewrite Heq in Hst'. injection Hst' as Hst'. by rewrite <- Hst', Hst.
Qed.

End Benchmark.

(** ** The model registry *)

Section Registry.

Import Engine.

Lemma unload_model_same_names (self : Engine.t) (model_name : pystr) :
  same_names self -> same_names (snd (unload_model self model_name)).
Proof.
  unfold same_names, unload_model. intros Hd.
  destruct (models self !! model_name) as [m|] eqn:Hm; [|done]. simpl.
  assert (is_Some (model_configs self !! model_name)) as [c Hc].
  { apply elem_of_dom. rewrite <- Hd. apply elem_of_dom. by eexists. }
  rewrite Hc. simpl. by rewrite !dom_delete_L, Hd.
Qed.

Lemma load_model_success_same_names (self : Engine.t) (w : World)
    (model_name model_path model_type : pystr)
    (input_shapes : option (gmap pystr (list nat)))
    (compile_config : list (pystr * pystr)) :
  same_names self ->
  fst (load_model self w model_name model_path model_type input_shapes
                  compile_config) = true ->
  same_names (snd (load_model self w model_name model_path model_type
                              input_shapes compile_config)).
Proof.
  unfold same_names, load_model. intros Hd.
  destruct (path_exists w model_path); simpl; [|done].
  destruct (compile_model w _ _) as [compiled_model|]; [|done].
  destruct (port_info (inputs compiled_model) ∅) as [input_info|]; simpl; [|done].
  destruct (port_info (outputs compiled_model) ∅) as [output_info|]; simpl; [|done].
  intros _. by rewrite !dom_insert_L, Hd.
Qed.

End Registry.

Lemma load_example_model :
  Engine.load_model empty_engine example_world (py "vlm") (py "vlm.xml")
    (py "multimodal") None [] = (true, example_engine).
Proof. reflexivity. Qed.

(** C9: a load that fails after the compilation leaves the model in
    [models] without an entry in [model_configs].  The model of
    dynamic.xml compiles, and reading the shape of its input raises:
    [load_model] returns false, and the name is in one map only.  The
    unload that follows removes the model and returns false as well. *)
Theorem failed_load_keeps_model :
  let loaded :=
    Engine.load_model empty_engine example_world (py "dyn") (py "dynamic.xml")
      (py "text") None [] in
  let unloaded := Engine.unload_model (snd loaded) (py "dyn") in
  same_names empty_engine
  /\ fst loaded = false
  /\ is_Some (Engine.models (snd loaded) !! py "dyn")
  /\ Engine.model_configs (snd loaded) !! py "dyn" = None
  /\ ~ same_names (snd loaded)
  /\ fst unloaded = false
  /\ Engine.models (snd unloaded) !! py "dyn" = None.
Proof.
  intros loaded unloaded.
  assert (Hm : is_Some (Engine.models (snd loaded) !! py "dyn"))
    by (eexists; vm_compute; reflexivity).
  assert (Hc : Engine.model_configs (snd loaded) !! py "dyn" = None)
    by (vm_compute; reflexivity).
  split; [reflexivity|]. split; [vm_compute; reflexivity|].
  split; [exact Hm|]. split; [exact Hc|]. split.
  { intros Hd. apply elem_of_dom in Hm. rewrite Hd in Hm.
    apply elem_of_dom in Hm as [c Hc']. congruence. }
  split; vm_compute; reflexivity.
Qed.

(** ** The entry points on the example engine *)

#[local] Existing Instance ascii_only.

(** C1 as stated fails: the three entry points return no dict at all for a
    model that is not loaded; for a loaded model, [infer_image] returns
    none for an input that cannot be preprocessed, and [infer_text] when
    no port takes a tensor of the text. *)
Lemma inference_can_return_none :
  fst (Engine.infer_image example_engine example_world (py "ghost")
         (ImageProcessor.Array example_image) None) = None
  /\ fst (Engine.infer_text example_engine example_world (py "ghost")
            (py "hello") None) = None
  /\ fst (@Engine.infer_multimodal ascii_only example_engine example_world
            (py "ghost") (ImageProcessor.Array example_image) (py "hello") None)
     = None
  /\ is_Some (Engine.models example_engine !! py "vlm")
  /\ fst (Engine.infer_image example_engine example_world (py "vlm")
            ImageProcessor.Unsupported None) = None
  /\ is_Some (Engine.models vision_engine !! py "resnet")
  /\ fst (Engine.infer_text vision_engine example_world (py "resnet")
            (py "hello") None) = None.
Proof.
  split; [vm_compute; reflexivity|]. split; [vm_compute; reflexivity|].
  split; [vm_compute; reflexivity|].
  split; [eexists; apply lookup_singleton_eq|].
  split; [vm_compute; reflexivity|].
  split; [eexists; apply lookup_singleton_eq|]. vm_compute; reflexivity.
Qed.

(** C3 as stated fails: the key TEXT does not contain the substring text,
    is no priority key and no logit key, and the extractor still takes it
    as a candidate, because it lowers the key first. *)
Lemma upper_case_key_is_a_candidate :
  let outputs := [(py "TEXT", VStr (py "hello"))] in
  no_textual_key outputs
  /\ @TextOutputProcessor.extract_text_from_multimodal_output ascii_only
       (Engine.text_output_processor example_engine) outputs = py "Hello."
  /\ @TextOutputProcessor.extract_text_from_multimodal_output ascii_only
       (Engine.text_output_processor example_engine) outputs
     <> TextOutputProcessor.extraction_failed.
Proof.
  intros outputs. split; [|split].
  - intros key v Hin. apply list_elem_of_singleton in Hin. injection Hin as -> ->.
    split; [|split].
    + apply (bool_decide_unpack _). vm_compute. reflexivity.
    + vm_compute. reflexivity.
    + intros [Hl _]. vm_compute in Hl. discriminate.
  - vm_compute. reflexivity.
  - vm_compute. discriminate.
Qed.

Lemma embedding_offers_no_candidate :
  @offers_no_candidate ascii_only [(py "embedding", VArray example_output)].
Proof.
  intros key v Hin. apply list_elem_of_singleton in Hin. injection Hin as -> ->.
  split; [|split].
  - apply (bool_decide_unpack _). vm_compute. reflexivity.
  - vm_compute. reflexivity.
  - intros [Hl _]. vm_compute in Hl. discriminate.
Defined.

Lemma extraction_failure_is_soft_example :
  @TextOutputProcessor.extract_text_from_multimodal_output ascii_only
    (Engine.text_output_processor example_engine)
    [(py "embedding", VArray example_output)]
  = TextOutputProcessor.extraction_failed
  /\ exists r w',
       @Engine.infer_multimodal ascii_only example_engine example_world (py "vlm")
         (ImageProcessor.Array example_image) (py "what is this?") None
       = (Some r, w')
       /\ Engine.success r = true /\ Engine.error r = None
       /\ Engine.result_outputs r = Some [(py "embedding", VArray example_output)].
Proof.
  destruct (@extraction_failure_is_soft ascii_only example_engine
              [(py "embedding", VArray example_output)]
              embedding_offers_no_candidate) as [Hx Hr].
  split; [exact Hx|].
  edestruct (Hr example_world (py "vlm") example_model
               (ImageProcessor.Array example_image) (py "what is this?") None)
    as (r & Hi & Hs).
  - apply lookup_singleton_eq.
  - reflexivity.
  - exists r. eexists. split; [exact Hi|exact Hs].
Defined.

Lemma example_names :
  names_of (Engine.inputs example_model)
           [py "input_ids"; py "Pixel_Values"; py "image_embeds"].
Proof. repeat constructor. Defined.

Lemma image_bound_to_first_match_example :
  exists bound,
    @Engine.bind_multimodal ascii_only (Engine.inputs example_model) example_tensor
      (TextProcessor.process_for_inference (Engine.text_processor example_engine)
         (py "hi") false) = Ok bound
    /\ bound !! py "Pixel_Values" = Some (Engine.TImage example_tensor)
    /\ bound !! py "image_embeds" <> Some (Engine.TImage example_tensor).
Proof.
  destruct (@image_bound_to_first_match ascii_only
              (Engine.text_processor example_engine) (py "hi") false
              (Engine.inputs example_model)
              [py "input_ids"; py "Pixel_Values"; py "image_embeds"]
              example_tensor example_names) as (bound & Hb & Hfirst & _).
  exists bound. split; [exact Hb|].
  destruct (Hfirst 1%nat (py "Pixel_Values")) as [Hp Honly].
  - reflexivity.
  - apply (@is_image_input_spec ascii_only). vm_compute. reflexivity.
  - intros j other Hj Ho Hlike. destruct j as [|j]; [|lia].
    injection Ho as <-. apply (@is_image_input_spec ascii_only) in Hlike.
    vm_compute in Hlike. discriminate.
  - split; [exact Hp|]. intros Hi. apply Honly in Hi. vm_compute in Hi.
    discriminate.
Defined.

Lemma image_passed_by_position_example :
  exists x,
    ImageProcessor.process_for_inference example_image_processor
      (ImageProcessor.Array example_image) false = Some x
    /\ Engine.calls (snd (Engine.infer_image example_engine example_world
                            (py "vlm") (ImageProcessor.Array example_image) None))
       = [(py "vlm", Engine.ByPosition [Engine.TImage x])].
Proof.
  eexists. split; [reflexivity|].
  refine (proj1 (@image_passed_by_position ascii_only example_engine example_world
                   (py "vlm") example_model (ImageProcessor.Array example_image)
                   None _ _ _) (py "input_ids") _).
  - apply lookup_singleton_eq.
  - reflexivity.
  - reflexivity.
Defined.

Lemma benchmark_excludes_warmup_example :
  exists r w',
    Engine.benchmark_model example_engine example_world (py "vlm") (py "ones") 10
    = (Some r, w')
    /\ length (Engine.calls w') = 13%nat
    /\ Engine.mean_time (Engine.timing_stats r)
       = (inject_Z (Engine.sumZ (map (Engine.delay example_world) (seq 3 10)))
          / inject_Z 10)%Q
    /\ (Engine.min_time (Engine.timing_stats r) <= Engine.delay example_world 3)%Z
    /\ (Engine.delay example_world 12 <= Engine.max_time (Engine.timing_stats r))%Z.
Proof.
  destruct (benchmark_excludes_warmup example_engine example_world example_world
              (py "vlm") (py "ones") example_model example_config example_dummy
              (fun _ => Ok example_output))
    as (r & w' & Hb & Hcalls & _ & Hmean & _ & Hminle & _ & Hmaxle & _).
  - apply lookup_singleton_eq.
  - apply lookup_singleton_eq.
  - reflexivity.
  - reflexivity.
  - exists r, w'. split; [exact Hb|]. split.
    { rewrite Hcalls. reflexivity. }
    split; [exact Hmean|].
    split.
    + apply Hminle, list_elem_of_In. by left.
    + apply Hmaxle, list_elem_of_In. do 9 right. by left.
Defined.

(** * Further properties *)

(** ** Stripping *)

Lemma lstrip_spec (s : pystr) :
  exists ws, s = ws ++ lstrip s /\ Forall (fun c => isspace c = true) ws.
Proof.
  induction s as [|c s (ws & Hs & Hws)]; simpl.
  - by exists [].
  - destruct (isspace c) eqn:Hc.
    + exists (c :: ws). split; [by rewrite Hs at 1|by constructor].
    + by exists [].
Qed.

Lemma lstrip_head (s r : pystr) (c : N) : lstrip s = c :: r -> isspace c = false.
Proof.
  induction s as [|a s IH]; simpl; [discriminate|].
  destruct (isspace a) eqn:Ha; [exact IH|]. by intros [= <- _].
Qed.

Lemma lstrip_fix (s : pystr) (c : N) :
  isspace c = false -> lstrip (c :: s) = c :: s.
Proof. intros Hc. simpl. by rewrite Hc. Qed.

Lemma lstrip_snoc (s : pystr) (c : N) :
  isspace c = false -> exists q, lstrip (s ++ [c]) = q ++ [c].
Proof.
  intros Hc. induction s as [|a s [q Hq]]; simpl.
  - rewrite Hc. by exists [].
  - destruct (isspace a); [by exists q|by exists (a :: s)].
Qed.

Lemma rstrip_snoc (s : pystr) (c : N) :
  isspace c = false -> rstrip (s ++ [c]) = s ++ [c].
Proof.
  intros Hc. unfold rstrip. rewrite rev_app_distr. simpl.
  rewrite Hc. simpl. by rewrite rev_involutive.
Qed.

Lemma rstrip_spec (s : pystr) :
  exists ws, s = rstrip s ++ ws /\ Forall (fun c => isspace c = true) ws.
Proof.
  unfold rstrip. destruct (lstrip_spec (rev s)) as (ws & Hs & Hws).
  exists (rev ws). split.
  - rewrite <- rev_app_distr, <- Hs. by rewrite rev_involutive.
  - apply Forall_forall. intros c Hc.
    apply (proj1 (Forall_forall _ _) Hws). by apply list_elem_of_In, in_rev, list_elem_of_In.
Qed.

Lemma rstrip_nil_or_snoc (s : pystr) :
  rstrip s = [] \/ exists q c, rstrip s = q ++ [c] /\ isspace c = false.
Proof.
  unfold rstrip. destruct (lstrip (rev s)) as [|c v] eqn:Hv; [by left|].
  right. exists (rev v), c. split; [reflexivity|]. by apply lstrip_head in Hv.
Qed.

Lemma strip_nil_or_ends (s : pystr) :
  strip s = []
  \/ exists a q c, strip s = a :: q /\ isspace a = false
                   /\ strip s = removelast (strip s) ++ [c] /\ isspace c = false.
Proof.
  unfold strip.
  destruct (rstrip_nil_or_snoc (lstrip s)) as [Hn|(q & c & Hq & Hc)]; [by left|].
  right. destruct (rstrip_spec (lstrip s)) as (ws & Hs & _).
  destruct (rstrip (lstrip s)) as [|a u] eqn:Hu; [by destruct q|].
  exists a, u, c. split; [reflexivity|]. split.
  - simpl in Hs. by apply lstrip_head in Hs.
  - split; [|exact Hc]. rewrite Hq. by rewrite removelast_last.
Qed.

Lemma strip_strip (s : pystr) : strip (strip s) = strip s.
Proof.
  destruct (strip_nil_or_ends s) as [->|(a & q & c & Ha & Hsa & Hc & Hsc)];
    [reflexivity|].
  unfold strip at 1. rewrite Ha at 1. rewrite lstrip_fix by exact Hsa.
  rewrite <- Ha, Hc. by apply rstrip_snoc.
Qed.

Lemma strip_snoc (s : pystr) (c : N) :
  isspace c = false -> exists q, strip (s ++ [c]) = q ++ [c].
Proof.
  intros Hc. unfold strip. destruct (lstrip_snoc s c Hc) as [q ->].
  exists q. by apply rstrip_snoc.
Qed.

Lemma lstrip_elem (s : pystr) (c : N) : c ∈ lstrip s -> c ∈ s.
Proof.
  destruct (lstrip_spec s) as (ws & Hs & _). intros Hc. rewrite Hs.
  apply elem_of_app. by right.
Qed.

Lemma rstrip_elem (s : pystr) (c : N) : c ∈ rstrip s -> c ∈ s.
Proof.
  destruct (rstrip_spec s) as (ws & Hs & _). intros Hc. rewrite Hs.
  apply elem_of_app. by left.
Qed.

Lemma strip_elem (s : pystr) (c : N) : c ∈ strip s -> c ∈ s.
Proof. intros Hc. by apply lstrip_elem, rstrip_elem. Qed.

(** ** Substitutions *)

Lemma sub_runs_elem (cls : N -> bool) (rep s : pystr) (in_run : bool) (c : N) :
  c ∈ sub_runs cls rep in_run s -> (c ∈ s /\ cls c = false) \/ c ∈ rep.
Proof.
  revert in_run. induction s as [|a s IH]; intros in_run; simpl.
  - by intros ?%elem_of_nil.
  - destruct (cls a) eqn:Ha.
    + intros [Hc|Hc]%elem_of_app.
      * right. by destruct in_run; [apply elem_of_nil in Hc|].
      * destruct (IH _ Hc) as [[? ?]|?]; [left|by right].
        split; [by apply list_elem_of_further|done].
    + intros [->|Hc]%elem_of_cons.
      * left. split; [apply list_elem_of_here|done].
      * destruct (IH _ Hc) as [[? ?]|?]; [left|by right].
        split; [by apply list_elem_of_further|done].
Qed.

Lemma replace_from_elem (old new s : pystr) (skip : nat) (c : N) :
  c ∈ replace_from old new skip s -> c ∈ s \/ c ∈ new.
Proof.
  revert skip. induction s as [|a s IH]; intros skip; simpl.
  - by intros ?%elem_of_nil.
  - destruct skip as [|k].
    + destruct (startswith old (a :: s)).
      * intros [Hc|Hc]%elem_of_app; [by right|].
        destruct (IH _ Hc); [left|by right]. by apply list_elem_of_further.
      * intros [->|Hc]%elem_of_cons; [left; apply list_elem_of_here|].
        destruct (IH _ Hc); [left|by right]. by apply list_elem_of_further.
    + intros Hc. destruct (IH _ Hc); [left|by right]. by apply list_elem_of_further.
Qed.

Lemma replace_elem (old new s : pystr) (c : N) :
  old <> [] -> c ∈ replace old new s -> c ∈ s \/ c ∈ new.
Proof.
  intros Ho. destruct old as [|o old]; [done|]. apply replace_from_elem.
Qed.

Lemma replace_same_char (a : N) (s : pystr) : replace [a] [a] s = s.
Proof.
  unfold replace. induction s as [|c s IH]; simpl; [reflexivity|].
  destruct (N.eqb_spec a c) as [->|Hne]; simpl; by rewrite IH.
Qed.

(** ** The text preprocessor, continued *)

Section Cleaning.

Import TextProcessor.

Lemma quote_literal_not_empty : quote_literal <> [].
Proof. discriminate. Qed.

Lemma clean_text_chars (x : pystr) (c : N) :
  c ∈ clean_text x -> 32 <= c /\ (c ∈ x \/ c = 32 \/ c = 39).
Proof.
  unfold clean_text. destruct x as [|a x]; [by intros ?%elem_of_nil|].
  set (y := a :: x). intros Hc.
  apply strip_elem, list_elem_of_In, filter_In in Hc as [Hc Hge].
  apply N.leb_le in Hge. split; [exact Hge|].
  apply list_elem_of_In in Hc. rewrite !replace_same_char in Hc.
  destruct (replace_elem _ _ _ _ quote_literal_not_empty Hc) as [Hc1|Hc1].
  2:{ right. right. by apply list_elem_of_singleton in Hc1. }
  apply sub_runs_elem in Hc1 as [[Hc2 _]|Hc2].
  2:{ right. left. by apply list_elem_of_singleton in Hc2. }
  apply sub_runs_elem in Hc2 as [[Hc3 _]|Hc3].
  2:{ right. left. by apply list_elem_of_singleton in Hc3. }
  left. by apply strip_elem.
Qed.

End Cleaning.

Section CleaningProperties.

Import TextProcessor.

(** X1: What [clean_text] returns is free of control characters and of
    whitespace at either end, and every character of it comes from the
    text, or is a space or an apostrophe put in by a substitution. *)
Theorem clean_text_is_printable_and_trimmed (x : pystr) :
  Forall (fun c => 32 <= c) (clean_text x)
  /\ strip (clean_text x) = clean_text x
  /\ (forall c, c ∈ clean_text x -> c ∈ x \/ c = 32 \/ c = 39).
Proof.
  split; [|split].
  - apply Forall_forall. intros c Hc. by apply clean_text_chars in Hc as [? _].
  - unfold clean_text. destruct x; [reflexivity|]. apply strip_strip.
  - intros c Hc. by apply clean_text_chars in Hc as [_ ?].
Qed.

Lemma mapM_chr_valid (cs : pystr) :
  Forall (fun c => c < 1114112) cs ->
  mapM (fun tid => z ← int_of tid; chr z) (map NInt (map Z.of_N cs)) = Ok cs.
Proof.
  induction 1 as [|c cs Hc _ IH]; [reflexivity|].
  cbn [map mapM]. rewrite IH. cbn [int_of mbind res_bind mret res_ret].
  unfold chr. rewrite N2Z.id.
  destruct (Z.leb_spec 0 (Z.of_N c)); [|lia].
  destruct (Z.ltb_spec (Z.of_N c) 1114112); [reflexivity|lia].
Qed.

Lemma filter_pos_chars (cs : pystr) :
  Forall (fun c => 32 <= c) cs ->
  List.filter num_pos (map NInt (map Z.of_N cs)) = map NInt (map Z.of_N cs).
Proof.
  induction 1 as [|c cs Hc _ IH]; [reflexivity|]. simpl.
  destruct (Z.ltb_spec 0 (Z.of_N c)); [by rewrite IH|lia].
Qed.

Lemma simple_tokenize_ids (self : TextProcessor.t) (text : pystr) :
  let L := max_length self in
  let cs := take L (clean_text text) in
  _simple_tokenize self text !! py "input_ids"
  = Some (TArr (int64_row (map Z.of_N cs ++ replicate (L - length cs) 0%Z))).
Proof.
  intros L cs. unfold _simple_tokenize. rewrite lookup_insert_eq.
  fold L. fold cs. rewrite length_map.
  destruct (Nat.ltb_spec (length cs) L) as [Hlt|Hge]; [reflexivity|].
  replace (L - length cs)%nat with 0%nat by lia. simpl. by rewrite app_nil_r.
Qed.

Lemma simple_tokenize_mask (self : TextProcessor.t) (text : pystr) :
  let L := max_length self in
  let cs := take L (clean_text text) in
  _simple_tokenize self text !! py "attention_mask"
  = Some (TArr (int64_row (map (fun x => if (0 <? x)%Z then 1%Z else 0%Z)
                             (map Z.of_N cs ++ replicate (L - length cs) 0%Z)))).
Proof.
  intros L cs. unfold _simple_tokenize.
  rewrite lookup_insert_ne by (vm_compute; discriminate).
  rewrite lookup_insert_eq.
  fold L. fold cs. rewrite length_map.
  destruct (Nat.ltb_spec (length cs) L) as [Hlt|Hge]; [reflexivity|].
  replace (L - length cs)%nat with 0%nat by lia. simpl. by rewrite app_nil_r.
Qed.

Lemma take_clean_chars (L : nat) (text : pystr) :
  Forall (fun c => 32 <= c) (take L (clean_text text))
  /\ forall c, c ∈ take L (clean_text text) -> c ∈ text \/ c = 32 \/ c = 39.
Proof.
  split.
  - apply Forall_take, Forall_forall. intros c Hc.
    by apply clean_text_chars in Hc as [? _].
  - intros c Hc. apply subseteq_take in Hc.
    by apply clean_text_chars in Hc as [_ ?].
Qed.

(** X2: The fallback tokenizer always returns two rows of exactly L entries:
    the code points of the cleaned text, cut at L and padded with zeros,
    and a mask that is 1 on the code points and 0 on the padding. *)
Theorem simple_tokenize_fixed_length (self : TextProcessor.t) (text : pystr) :
  let L := max_length self in
  let cs := take L (clean_text text) in
  exists input_ids attention_mask,
    _simple_tokenize self text !! py "input_ids" = Some (TArr input_ids)
    /\ _simple_tokenize self text !! py "attention_mask" = Some (TArr attention_mask)
    /\ shape input_ids = [1%nat; L] /\ shape attention_mask = [1%nat; L]
    /\ length (data input_ids) = L /\ length (data attention_mask) = L
    /\ data input_ids
       = map NInt (map Z.of_N cs ++ replicate (L - length cs) 0%Z)
    /\ data attention_mask
       = map NInt (replicate (length cs) 1%Z ++ replicate (L - length cs) 0%Z).
Proof.
  intros L cs.
  assert (Hlen : (length cs <= L)%nat) by (unfold cs; rewrite length_take; lia).
  assert (Hrow : length (map Z.of_N cs ++ replicate (L - length cs) 0%Z) = L)
    by (rewrite length_app, length_map, length_replicate; lia).
  assert (Hmask :
    map (fun x => if (0 <? x)%Z then 1%Z else 0%Z)
        (map Z.of_N cs ++ replicate (L - length cs) 0%Z)
    = replicate (length cs) 1%Z ++ replicate (L - length cs) 0%Z).
  { rewrite map_app. f_equal.
    - destruct (take_clean_chars L text) as [Hge _]. fold cs in Hge.
      clear Hlen Hrow. induction Hge as [|c r Hc _ IH]; [reflexivity|]. simpl.
      destruct (Z.ltb_spec 0 (Z.of_N c)); [by rewrite IH|lia].
    - generalize (L - length cs)%nat. intros n.
      induction n as [|n IH]; [reflexivity|]. simpl. by rewrite IH. }
  eexists _, _. split; [apply simple_tokenize_ids|].
  split; [apply simple_tokenize_mask|].
  fold L. fold cs. cbn [int64_row shape data].
  rewrite !length_map, Hrow, Hmask. repeat split; reflexivity.
Qed.

(** X3: Round trip of the character codec: when the code points of a text are
    valid, decoding the ids of its tokenization gives back the cleaned
    text, cut at L. *)
Theorem codec_round_trip (self : TextProcessor.t) (text : pystr) :
  tokenizer self = None ->
  Forall (fun c => c < 1114112) text ->
  exists input_ids,
    tokenize_text self text !! py "input_ids" = Some (TArr input_ids)
    /\ decode_tokens self (TokArr input_ids)
       = take (max_length self) (clean_text text).
Proof.
  intros Htok Hvalid. unfold tokenize_text, decode_tokens. rewrite Htok.
  eexists. split; [apply simple_tokenize_ids|].
  cbn [tolist int64_row data].
  destruct (take_clean_chars (max_length self) text) as [Hge Hfrom].
  rewrite map_app, List.filter_app, filter_pos_zeros, app_nil_r.
  rewrite filter_pos_chars by exact Hge.
  rewrite mapM_chr_valid; [reflexivity|].
  apply Forall_forall. intros c Hc.
  destruct (Hfrom c Hc) as [Hin|[->| ->]]; [|lia|lia].
  by apply (proj1 (Forall_forall _ _) Hvalid).
Qed.

Lemma codec_round_trip_example :
  exists input_ids,
    tokenize_text {| max_length := 8; tokenizer := None |} (py "  Hello,   world!  ")
      !! py "input_ids" = Some (TArr input_ids)
    /\ decode_tokens {| max_length := 8; tokenizer := None |} (TokArr input_ids)
       = py "Hello, w".
Proof.
  apply (codec_round_trip {| max_length := 8; tokenizer := None |}
           (py "  Hello,   world!  ")); [reflexivity|].
  apply Forall_forall. intros c Hc. apply list_elem_of_In in Hc. simpl in Hc.
  repeat destruct Hc as [<-|Hc]; [reflexivity..|destruct Hc].
Defined.

Lemma mapM_raises {A B} (f : A -> res B) (l : list A) (x : A) (e : pystr) :
  x ∈ l -> f x = Raise e -> exists e', mapM f l = Raise e'.
Proof.
  intros Hx Hf. induction l as [|a l IH]; [by apply elem_of_nil in Hx|].
  cbn [mapM]. destruct (f a) as [b|e0] eqn:Hfa; [|by exists e0].
  apply elem_of_cons in Hx as [->|Hx]; [congruence|].
  destruct (IH Hx) as [e' ->]. by exists e'.
Qed.

(** X4: One id beyond the last code point blanks the whole decoding: the
    fallback decoder returns the empty string, not the other characters. *)
Theorem decode_tokens_out_of_range (self : TextProcessor.t) (ids : list Z) (z : Z) :
  tokenizer self = None ->
  z ∈ ids -> (1114112 <= z)%Z ->
  decode_tokens self (TokList (map NInt ids)) = [].
Proof.
  intros Htok Hz Hbig. unfold decode_tokens. rewrite Htok. cbn [tolist].
  destruct (mapM_raises (fun tid => z ← int_of tid; chr z)
              (List.filter num_pos (map NInt ids)) (NInt z)
              (py "chr() arg not in range(0x110000)")) as [e' ->]; [| |reflexivity].
  - apply list_elem_of_In, filter_In. split.
    + apply in_map. by apply list_elem_of_In.
    + simpl. apply Z.ltb_lt. lia.
  - cbn [int_of mbind res_bind]. unfold chr.
    destruct (Z.ltb_spec z 1114112); [lia|]. by rewrite andb_false_r.
Qed.

Lemma decode_tokens_out_of_range_example :
  decode_tokens {| max_length := 8; tokenizer := None |}
    (TokList (map NInt [72; 105; 1114112]%Z)) = [].
Proof.
  apply (decode_tokens_out_of_range _ _ 1114112%Z); [reflexivity| |lia].
  apply list_elem_of_In. simpl. tauto.
Defined.

End CleaningProperties.

(** ** The output text processor *)

Lemma endswith_char (c : N) (s : pystr) :
  endswith [c] s = true <-> exists q, s = q ++ [c].
Proof.
  unfold endswith. simpl. split.
  - destruct (rev s) as [|a r] eqn:Hr; simpl; [discriminate|].
    rewrite andb_true_r. intros ->%N.eqb_eq. exists (rev r).
    by rewrite <- (rev_involutive s), Hr.
  - intros [q ->]. rewrite rev_app_distr. simpl. by rewrite N.eqb_refl.
Qed.

Lemma mapM_int_of (zs : list Z) : mapM int_of (map NInt zs) = Ok zs.
Proof.
  induction zs as [|z zs IH]; [reflexivity|]. cbn [map mapM]. by rewrite IH.
Qed.

Lemma replace_char_elem (a b : N) (s : pystr) :
  a <> b -> a ∉ replace [a] [b] s.
Proof.
  intros Hab. unfold replace. induction s as [|c s IH]; simpl.
  - apply not_elem_of_nil.
  - destruct (N.eqb_spec a c) as [->|Hne]; simpl.
    + rewrite not_elem_of_cons. split; [exact Hab|exact IH].
    + rewrite not_elem_of_cons. split; [exact Hne|exact IH].
Qed.

Lemma Forall_flat_map_intro {A B} (P : B -> Prop) (f : A -> list B) (l : list A) :
  (forall x, Forall P (f x)) -> Forall P (flat_map f l).
Proof.
  intros Hf. induction l as [|a l IH]; simpl; [constructor|].
  apply Forall_app. split; [apply Hf|exact IH].
Qed.

Section OutputText.
Context `{Unicode}.

Import TextOutputProcessor.

Lemma clean_generated_text_ends (text : pystr) :
  clean_generated_text text = []
  \/ exists q c, clean_generated_text text = q ++ [c]
                 /\ (c = 46 \/ c = 33 \/ c = 63).
Proof.
  unfold clean_generated_text. destruct text as [|a text]; [by left|].
  match goal with |- context [join ?sep ?parts] => generalize (join sep parts) end.
  intros j. destruct j as [|b j]; [by left|]. right.
  destruct (ends_sentence _ (b :: j)) eqn:He.
  - unfold ends_sentence in He. cbn [map existsb] in He.
    rewrite orb_false_r in He.
    assert (exists q c, b :: j = q ++ [c] /\ (c = 46 \/ c = 33 \/ c = 63))
      as (q & c & -> & Hc).
    { apply orb_true_iff in He as [He|He];
        [|apply orb_true_iff in He as [He|He]];
        apply endswith_char in He as [q Hq]; exists q; eexists;
        (split; [exact Hq|]); tauto. }
    destruct (strip_snoc q c) as [q' ->]; [by destruct Hc as [->|[->| ->]]|].
    by exists q', c.
  - destruct (strip_snoc (b :: j) 46) as [q' Hq']; [reflexivity|].
    exists q', 46. split; [exact Hq'|by left].
Qed.

(** X5: a cleaned generated text is empty or ends with a full stop, an
    exclamation mark or a question mark, and has no whitespace at either
    end. *)
Theorem clean_generated_text_closed (text : pystr) :
  (clean_generated_text text = []
   \/ ends_sentence (map py ["."; "!"; "?"]%string) (clean_generated_text text) = true)
  /\ strip (clean_generated_text text) = clean_generated_text text.
Proof.
  split.
  - destruct (clean_generated_text_ends text) as [?|(q & c & -> & Hc)]; [by left|].
    right. unfold ends_sentence. cbn [map existsb].
    assert (He : endswith [c] (q ++ [c]) = true) by (apply endswith_char; by exists q).
    destruct Hc as [->|[->| ->]];
      change (py ".") with [46]; change (py "!") with [33]; change (py "?") with [63];
      rewrite He; by rewrite ?orb_true_r.
  - unfold clean_generated_text. destruct text; [reflexivity|]. apply strip_strip.
Qed.

Lemma sort_desc_block (p : nat) (l r : list candidate) :
  Forall (fun c => snd c = p) l -> Forall (fun d => (snd d <= p)%nat) r ->
  sort_desc r = r -> sort_desc (l ++ r) = l ++ r.
Proof.
  intros Hl Hr Hs. induction Hl as [|c l Hc Hl IH]; [exact Hs|].
  change (sort_desc ((c :: l) ++ r)) with (insert_desc c (sort_desc (l ++ r))).
  transitivity (insert_desc c (l ++ r)); [f_equal; exact IH|].
  destruct l as [|d l]; simpl.
  - destruct r as [|d r]; [reflexivity|]. simpl.
    apply Forall_cons in Hr as [Hd _].
    destruct (Nat.leb_spec (snd d) (snd c)); [reflexivity|lia].
  - apply Forall_cons in Hl as [Hd _].
    destruct (Nat.leb_spec (snd d) (snd c)); [reflexivity|lia].
Qed.

Lemma text_candidates_sorted (outputs : odict value) :
  sort_desc (text_candidates outputs) = text_candidates outputs.
Proof.
  unfold text_candidates.
  apply (sort_desc_block 10).
  { apply Forall_flat_map_intro. intros key.
    destruct (odict_get key outputs); repeat constructor. }
  { apply Forall_app. split; apply Forall_flat_map_intro; intros [key v].
    - destruct (negb _ && _); repeat constructor; simpl; lia.
    - destruct (_ && _); repeat constructor; simpl; lia. }
  apply (sort_desc_block 5).
  { apply Forall_flat_map_intro. intros [key v].
    destruct (negb _ && _); repeat constructor. }
  { apply Forall_flat_map_intro. intros [key v].
    destruct (_ && _); repeat constructor; simpl; lia. }
  rewrite <- (app_nil_r (flat_map _ outputs)).
  apply (sort_desc_block 1); [|constructor|reflexivity].
  apply Forall_flat_map_intro. intros [key v].
  destruct (_ && _); repeat constructor.
Qed.

(** X6: the sort of the candidates never moves one: they are tried in the
    order in which they were collected, the fixed keys in the order of
    their list, then the keys that contain text and then the logit keys,
    both in the order of the outputs. *)
Theorem candidates_tried_in_collection_order (self : TextOutputProcessor.t)
    (outputs : odict value) :
  sort_desc (text_candidates outputs) = text_candidates outputs
  /\ extract_text_from_multimodal_output self outputs
     = first_text self (text_candidates outputs).
Proof.
  split; [apply text_candidates_sorted|].
  unfold extract_text_from_multimodal_output. by rewrite text_candidates_sorted.
Qed.

(** X7: a string under a fixed key is the answer, wherever the key stands
    in the outputs, when the fixed keys listed before it are absent. *)
Theorem first_priority_key_wins (self : TextOutputProcessor.t)
    (outputs : odict value) (i : nat) (key s : pystr) :
  priority_keys !! i = Some key ->
  (forall j k, (j < i)%nat -> priority_keys !! j = Some k ->
               odict_get k outputs = None) ->
  odict_get key outputs = Some (VStr s) ->
  extract_text_from_multimodal_output self outputs = clean_generated_text s.
Proof.
  intros Hi Habs Hget. unfold extract_text_from_multimodal_output.
  rewrite text_candidates_sorted. unfold text_candidates.
  rewrite <- (take_drop_middle priority_keys i key Hi).
  rewrite flat_map_app. rewrite flat_map_all_nil.
  - simpl. by rewrite Hget.
  - intros k Hk. apply elem_of_take in Hk as (j & Hj & Hlt).
    by rewrite (Habs j k Hlt Hj).
Qed.

(** X8: for a prompt that asks a question the answer is the cleaned text,
    which already ends with a mark; the ideographic full stop is added only
    to a text that cleaning has emptied, and is then the whole answer. *)
Theorem question_answer (text user_prompt : pystr) :
  text <> [] ->
  contains (py "質問") user_prompt || contains (py "?") user_prompt
    || contains (py "？") user_prompt = true ->
  format_conversation_output text (Some user_prompt) true
  = match clean_generated_text text with
    | [] => py "。"
    | cleaned => cleaned
    end.
Proof.
  intros Htext Hq. unfold format_conversation_output.
  destruct text as [|a text]; [done|].
  destruct user_prompt as [|b user_prompt]; [discriminate|].
  rewrite Hq.
  destruct (clean_generated_text_ends (a :: text)) as [->|(q & c & -> & Hc)];
    [reflexivity|].
  assert (He : endswith [c] (q ++ [c]) = true) by (apply endswith_char; by exists q).
  replace (ends_sentence _ (q ++ [c])) with true.
  - by destruct q.
  - unfold ends_sentence. cbn [map existsb].
    destruct Hc as [->|[->| ->]];
      change (py ".") with [46]; change (py "!") with [33]; change (py "?") with [63];
      rewrite He; by rewrite ?orb_true_r.
Qed.

(** X9: for a prompt that asks for an explanation, and not a question, the
    answer has no line break. *)
Theorem explanation_on_one_line (text user_prompt : pystr) :
  text <> [] ->
  contains (py "質問") user_prompt || contains (py "?") user_prompt
    || contains (py "？") user_prompt = false ->
  contains (py "説明") user_prompt || contains (py "教え") user_prompt = true ->
  10 ∉ format_conversation_output text (Some user_prompt) true.
Proof.
  intros Htext Hq He. unfold format_conversation_output.
  destruct text as [|a text]; [done|].
  destruct user_prompt as [|b user_prompt]; [discriminate|].
  rewrite Hq, He. change (py " ") with [32]. by apply replace_char_elem.
Qed.

End OutputText.

Section OutputTextExamples.

Import TextOutputProcessor.

Lemma first_priority_key_wins_example :
  extract_text_from_multimodal_output
    {| tokenizer := None; sample_token := fun _ => Ok (NInt 0) |}
    [(py "logits", VOther); (py "my_text", VStr (py "no"));
     (py "caption", VStr (py "a cat  on a mat"))]
  = py "A cat on a mat.".
Proof.
  apply (first_priority_key_wins _
           [(py "logits", VOther); (py "my_text", VStr (py "no"));
            (py "caption", VStr (py "a cat  on a mat"))]
           2 (py "caption") (py "a cat  on a mat")).
  - reflexivity.
  - intros j k Hj. destruct j as [|[|j]]; [| |lia]; intros [= <-]; reflexivity.
  - reflexivity.
Defined.

Lemma question_answer_example :
  format_conversation_output (py "<pad>") (Some (py "what is this?")) true = py "。".
Proof.
  apply (question_answer (py "<pad>") (py "what is this?")); [discriminate|reflexivity].
Defined.

Lemma explanation_on_one_line_example :
  10 ∉ format_conversation_output (py "one" ++ [10] ++ py "two")
         (Some (py "説明して")) true.
Proof.
  apply (explanation_on_one_line (py "one" ++ [10] ++ py "two") (py "説明して"));
    [discriminate|reflexivity|reflexivity].
Defined.

End OutputTextExamples.

(** ** The registry of the engine *)

Section RegistryProperties.

Import Engine.

(** X10: the two maps of the engine keep holding the same names across an
    unload, whatever it returns, and across a load that returns true. *)
Theorem registry_names_kept (self : Engine.t) (w : World)
    (model_name model_path model_type : pystr)
    (input_shapes : option (gmap pystr (list nat)))
    (compile_config : list (pystr * pystr)) :
  same_names self ->
  same_names (snd (unload_model self model_name))
  /\ (fst (load_model self w model_name model_path model_type input_shapes
                      compile_config) = true ->
      same_names (snd (load_model self w model_name model_path model_type
                                  input_shapes compile_config))).
Proof.
  intros Hs. split.
  - by apply unload_model_same_names.
  - by apply load_model_success_same_names.
Qed.

Lemma registry_names_kept_example :
  same_names (snd (unload_model example_engine (py "vlm")))
  /\ (fst (load_model example_engine example_world (py "vlm") (py "vlm.xml")
             (py "image") None []) = true ->
      same_names (snd (load_model example_engine example_world (py "vlm")
                         (py "vlm.xml") (py "image") None []))).
Proof.
  apply (registry_names_kept example_engine example_world (py "vlm") (py "vlm.xml")
           (py "image") None []).
  unfold same_names, example_engine. cbn [models model_configs].
  by rewrite !dom_singleton_L.
Defined.

(** X11: a load that returns true registers the compiled model and its
    description under the name, with the type and the path it was given
    and the ports read off the model, and leaves every other name and the
    three processors as they were. *)
Theorem load_model_registers (self self' : Engine.t) (w : World)
    (model_name model_path model_type : pystr)
    (input_shapes : option (gmap pystr (list nat)))
    (compile_config : list (pystr * pystr)) :
  load_model self w model_name model_path model_type input_shapes compile_config
  = (true, self') ->
  exists compiled_model config,
    path_exists w model_path = true
    /\ compile_model w (pathlib_str w model_path) compile_config = Some compiled_model
    /\ models self' !! model_name = Some compiled_model
    /\ get_model_info self' model_name = Some config
    /\ config_type config = model_type
    /\ config_path config = pathlib_str w model_path
    /\ config_input_shapes config = default ∅ input_shapes
    /\ port_info (inputs compiled_model) ∅ = Ok (config_inputs config)
    /\ port_info (outputs compiled_model) ∅ = Ok (config_outputs config)
    /\ (forall other, other <> model_name ->
          models self' !! other = models self !! other
          /\ get_model_info self' other = get_model_info self other)
    /\ image_processor self' = image_processor self
    /\ text_processor self' = text_processor self
    /\ text_output_processor self' = text_output_processor self.
Proof.
  unfold load_model. destruct (path_exists w model_path); simpl; [|discriminate].
  destruct (compile_model w _ _) as [compiled_model|]; [|discriminate].
  destruct (port_info (inputs compiled_model) ∅) as [input_info|] eqn:Hi; simpl;
    [|discriminate].
  destruct (port_info (outputs compiled_model) ∅) as [output_info|] eqn:Ho; simpl;
    [|discriminate].
  intros [= <-]. eexists _, _. unfold get_model_info. simpl.
  split; [reflexivity|]. split; [reflexivity|].
  split; [apply lookup_insert_eq|]. split; [apply lookup_insert_eq|].
  simpl. do 3 (split; [reflexivity|]). split; [exact Hi|]. split; [exact Ho|].
  split; [|done].
  intros other Hne. by rewrite !lookup_insert_ne.
Qed.

Lemma load_model_registers_example :
  exists compiled_model config,
    path_exists example_world (py "vlm.xml") = true
    /\ compile_model example_world (pathlib_str example_world (py "vlm.xml")) []
       = Some compiled_model
    /\ models example_engine !! py "vlm" = Some compiled_model
    /\ get_model_info example_engine (py "vlm") = Some config
    /\ config_type config = py "multimodal"
    /\ config_path config = pathlib_str example_world (py "vlm.xml")
    /\ config_input_shapes config = default ∅ None
    /\ port_info (inputs compiled_model) ∅ = Ok (config_inputs config)
    /\ port_info (outputs compiled_model) ∅ = Ok (config_outputs config)
    /\ (forall other, other <> py "vlm" ->
          models example_engine !! other = models empty_engine !! other
          /\ get_model_info example_engine other = get_model_info empty_engine other)
    /\ image_processor example_engine = image_processor empty_engine
    /\ text_processor example_engine = text_processor empty_engine
    /\ text_output_processor example_engine = text_output_processor empty_engine.
Proof.
  apply (load_model_registers empty_engine example_engine example_world
           (py "vlm") (py "vlm.xml") (py "multimodal") None []).
  reflexivity.
Defined.

(** X12: unloading a model that has just been loaded under a name that was
    free returns true and gives back the engine as it was before the
    load. *)
Theorem unload_undoes_load (self self' : Engine.t) (w : World)
    (model_name model_path model_type : pystr)
    (input_shapes : option (gmap pystr (list nat)))
    (compile_config : list (pystr * pystr)) :
  models self !! model_name = None ->
  model_configs self !! model_name = None ->
  load_model self w model_name model_path model_type input_shapes compile_config
  = (true, self') ->
  unload_model self' model_name = (true, self).
Proof.
  intros Hm Hc. unfold load_model.
  destruct (path_exists w model_path); simpl; [|discriminate].
  destruct (compile_model w _ _) as [compiled_model|]; [|discriminate].
  destruct (port_info (inputs compiled_model) ∅) as [input_info|]; simpl;
    [|discriminate].
  destruct (port_info (outputs compiled_model) ∅) as [output_info|]; simpl;
    [|discriminate].
  intros [= <-]. unfold unload_model. simpl. rewrite !lookup_insert_eq.
  unfold set_model_configs, set_models. simpl.
  rewrite !delete_insert_id by assumption. by destruct self.
Qed.

Lemma unload_undoes_load_example :
  unload_model example_engine (py "vlm") = (true, empty_engine).
Proof.
  apply (unload_undoes_load empty_engine example_engine example_world
           (py "vlm") (py "vlm.xml") (py "multimodal") None []);
    reflexivity.
Defined.

End RegistryProperties.

(** ** The named outputs and the bound inputs *)

Lemma odict_set_fresh {V} (key : pystr) (v : V) (d : odict V) :
  key ∉ d.*1 -> odict_set key v d = d ++ [(key, v)].
Proof.
  induction d as [|[k u] d IH]; simpl; [reflexivity|].
  rewrite not_elem_of_cons. intros [Hne Hd].
  case_bool_decide; [congruence|]. by rewrite IH.
Qed.

Section Ports.

Import Engine.

Lemma collect_outputs_zip (ports : list Port) (names : list pystr)
    (results : list ndarray) (result : nat -> res ndarray) (i : nat)
    (outputs : odict value) :
  names_of ports names -> NoDup (outputs.*1 ++ names) ->
  length results = length ports ->
  (forall j r, results !! j = Some r -> result (i + j)%nat = Ok r) ->
  collect_outputs ports i result outputs
  = Ok (outputs ++ zip names (map VArray results)).
Proof.
  intros Hn. revert results i outputs.
  induction Hn as [|port name ports names Hname _ IH];
    intros results i outputs Hnd Hlen Hres.
  - simpl. by rewrite app_nil_r.
  - destruct results as [|r results]; [discriminate|]. simpl.
    rewrite <- (Nat.add_0_r i) at 1. rewrite (Hres 0%nat r eq_refl), Hname.
    cbn [mbind res_bind].
    apply NoDup_app in Hnd as (Hd1 & Hd2 & Hd3).
    apply NoDup_cons in Hd3 as [Hd3 Hd4].
    assert (Hfresh : name ∉ outputs.*1).
    { intros Hin. apply (Hd2 name Hin). apply list_elem_of_here. }
    rewrite odict_set_fresh by exact Hfresh.
    rewrite (IH results (S i)).
    + by rewrite <- app_assoc.
    + rewrite fmap_app. simpl. rewrite <- app_assoc. simpl.
      apply NoDup_app. split; [exact Hd1|]. split.
      * intros x Hx. exact (Hd2 x Hx).
      * by apply NoDup_cons.
    + simpl in Hlen. lia.
    + intros j r' Hj. replace (S i + j)%nat with (i + S j)%nat by lia.
      by apply Hres.
Qed.

(** X13: when the output ports have distinct names and the result has an
    array at each of their positions, the outputs are the names paired with
    the arrays, in the order of the ports. *)
Theorem outputs_named_in_port_order (ports : list Port) (names : list pystr)
    (results : list ndarray) (result : nat -> res ndarray) :
  names_of ports names -> NoDup names ->
  length results = length ports ->
  (forall j r, results !! j = Some r -> result j = Ok r) ->
  collect_outputs ports 0 result [] = Ok (zip names (map VArray results)).
Proof.
  intros Hn Hnd Hlen Hres.
  by apply (collect_outputs_zip ports names results result 0 []).
Qed.

Lemma outputs_named_in_port_order_example :
  collect_outputs [example_port "logits" [1; 2]%nat; example_port "embedding" [1; 2]%nat]
    0 (fun j => Ok (np_ones [j])) []
  = Ok [(py "logits", VArray (np_ones [0%nat]));
        (py "embedding", VArray (np_ones [1%nat]))].
Proof.
  apply (outputs_named_in_port_order
           [example_port "logits" [1; 2]%nat; example_port "embedding" [1; 2]%nat]
           [py "logits"; py "embedding"] [np_ones [0%nat]; np_ones [1%nat]]
           (fun j => Ok (np_ones [j]))).
  - repeat constructor.
  - apply NoDup_cons. split; [|apply NoDup_singleton].
    intros Hin. apply list_elem_of_singleton in Hin. discriminate.
  - reflexivity.
  - intros j r. destruct j as [|[|j]]; intros [= <-]; reflexivity.
Defined.

Lemma existsb_bool_decide (x : pystr) (l : list pystr) :
  existsb (fun n => bool_decide (n = x)) l = bool_decide (x ∈ l).
Proof.
  induction l as [|a l IH]; cbn [existsb].
  - symmetry. apply bool_decide_eq_false_2, not_elem_of_nil.
  - rewrite IH. destruct (decide (a = x)) as [->|Hne].
    + rewrite (bool_decide_eq_true_2 (x = x)) by done. cbn [orb]. symmetry.
      apply bool_decide_eq_true_2, list_elem_of_here.
    + rewrite (bool_decide_eq_false_2 (a = x)) by done. cbn [orb].
      apply bool_decide_ext. rewrite elem_of_cons. split; [tauto|].
      intros [Heq|Hin]; [congruence|exact Hin].
Qed.

Lemma existsb_alias (input_name : pystr) :
  existsb (fun n => bool_decide (n = input_name)) input_id_names
  = bool_decide (input_name ∈ input_id_names).
Proof. apply existsb_bool_decide. Qed.

Lemma bind_text_ports_lookup (ports : list Port) (names : list pystr)
    (processed_text : gmap pystr TextProcessor.tvalue)
    (acc : gmap pystr tensor) :
  names_of ports names ->
  exists bound,
    bind_text_ports ports processed_text acc = Ok bound
    /\ forall name,
         bound !! name
         = match (if bool_decide (name ∈ names)
                  then match processed_text !! name with
                       | Some v => Some (TText v)
                       | None =>
                         if bool_decide (name ∈ input_id_names)
                         then TText <$> processed_text !! py "input_ids"
                         else None
                       end
                  else None) with
           | Some x => Some x
           | None => acc !! name
           end.
Proof.
  intros Hn. revert acc.
  induction Hn as [|port input_name ports names Hname _ IH]; intros acc.
  - exists acc. split; [reflexivity|]. intros name.
    rewrite bool_decide_eq_false_2; [reflexivity|apply not_elem_of_nil].
  - cbn [bind_text_ports]. rewrite Hname. cbn [mbind res_bind].
    rewrite existsb_alias.
    match goal with |- context [bind_text_ports ports processed_text ?a] =>
      destruct (IH a) as (bound & -> & Hb) end.
    exists bound. split; [reflexivity|]. intros name. rewrite (Hb name).
    destruct (decide (name = input_name)) as [->|Hne].
    + rewrite (bool_decide_eq_true_2 (input_name ∈ input_name :: names))
        by apply list_elem_of_here.
      destruct (processed_text !! input_name) as [v|] eqn:Hv.
      * rewrite lookup_insert_eq. by case_bool_decide.
      * destruct (bool_decide (input_name ∈ input_id_names)).
        -- destruct (processed_text !! py "input_ids") as [ids|]; simpl.
           ++ rewrite lookup_insert_eq. by case_bool_decide.
           ++ by case_bool_decide.
        -- destruct (processed_text !! py "input_ids"); by case_bool_decide.
    + assert (Hiff : bool_decide (name ∈ input_name :: names)
                     = bool_decide (name ∈ names)).
      { apply bool_decide_ext. rewrite elem_of_cons. split; [|tauto].
        intros [Heq|Hin]; [congruence|exact Hin]. }
      rewrite Hiff.
      assert (Hacc : forall t,
        (<[input_name := t]> acc : gmap pystr tensor) !! name = acc !! name)
        by (intros t; by rewrite lookup_insert_ne).
      destruct (processed_text !! input_name) as [v|]; [by rewrite Hacc|].
      destruct (processed_text !! py "input_ids"); [|reflexivity].
      destruct (bool_decide (input_name ∈ input_id_names));
        [by rewrite Hacc|reflexivity].
Qed.

(** X14: the dict that the text entry point hands to the model.  A port
    takes the tensor of the processed text that has its name; a port named
    input, input_ids or inputs that has none takes the input ids; any other
    port, and any name that is not a port, stays unbound. *)
Theorem text_ports_bound (ports : list Port) (names : list pystr)
    (processed_text : gmap pystr TextProcessor.tvalue) :
  names_of ports names ->
  exists bound,
    bind_text_ports ports processed_text ∅ = Ok bound
    /\ forall name,
         bound !! name
         = if bool_decide (name ∈ names)
           then match processed_text !! name with
                | Some v => Some (TText v)
                | None =>
                  if bool_decide (name ∈ input_id_names)
                  then TText <$> processed_text !! py "input_ids"
                  else None
                end
           else None.
Proof.
  intros Hn.
  destruct (bind_text_ports_lookup ports names processed_text ∅ Hn)
    as (bound & Hb & Hl).
  exists bound. split; [exact Hb|]. intros name. rewrite (Hl name).
  rewrite lookup_empty. by destruct (if bool_decide _ then _ else _).
Qed.

Lemma text_ports_bound_example :
  exists bound,
    bind_text_ports [example_port "inputs" [1; 8]%nat; example_port "mask" [1; 8]%nat]
      (TextProcessor._simple_tokenize
         {| TextProcessor.max_length := 8; TextProcessor.tokenizer := None |}
         (py "Hi")) ∅ = Ok bound
    /\ forall name,
         bound !! name
         = if bool_decide (name ∈ [py "inputs"; py "mask"])
           then match TextProcessor._simple_tokenize
                        {| TextProcessor.max_length := 8;
                           TextProcessor.tokenizer := None |} (py "Hi") !! name with
                | Some v => Some (TText v)
                | None =>
                  if bool_decide (name ∈ input_id_names)
                  then TText <$> TextProcessor._simple_tokenize
                         {| TextProcessor.max_length := 8;
                            TextProcessor.tokenizer := None |} (py "Hi")
                         !! py "input_ids"
                  else None
                end
           else None.
Proof.
  apply (text_ports_bound
           [example_port "inputs" [1; 8]%nat; example_port "mask" [1; 8]%nat]
           [py "inputs"; py "mask"]).
  repeat constructor.
Defined.

End Ports.

(** ** The benchmark, for any number of iterations *)

Section BenchmarkProperties.

Import Engine.

(** X15: a benchmark of n iterations, n positive, invokes the model n + 3
    times with the same dummy inputs; its statistics are those of the last
    n durations, and the minimum it reports is at most the maximum. *)
Theorem benchmark_counts_iterations (self : Engine.t) (w w1 : World)
    (model_name input_type : pystr) (compiled_model : CompiledModel)
    (model_config : ModelConfig) (dummy : gmap pystr tensor)
    (out : nat -> res ndarray) (n : nat) :
  models self !! model_name = Some compiled_model ->
  model_configs self !! model_name = Some model_config ->
  dummy_inputs (inputs compiled_model) input_type w ∅ = (Ok dummy, w1) ->
  run compiled_model (ByName dummy) = Ok out ->
  (0 < n)%nat ->
  exists r w',
    benchmark_model self w model_name input_type (Z.of_nat n) = (Some r, w')
    /\ calls w' = calls w ++ replicate (n + 3) (model_name, ByName dummy)
    /\ timing_stats_of (map (delay w) (seq (steps w + 3) n)) = Ok (timing_stats r)
    /\ mean_time (timing_stats r)
       = (inject_Z (sumZ (map (delay w) (seq (steps w + 3) n)))
          / inject_Z (Z.of_nat n))%Q
    /\ (min_time (timing_stats r) <= max_time (timing_stats r))%Z.
Proof.
  intros Hm Hc Hd Hrun Hn.
  destruct (benchmark_report self w w1 model_name input_type compiled_model
              model_config dummy out n Hm Hc Hd Hrun Hn)
    as (r & w' & Hb & Hcalls & Hst).
  exists r, w'. split; [exact Hb|]. split.
  { rewrite Hcalls. f_equal. f_equal. unfold warmup_iterations. lia. }
  unfold timed_samples, warmup_iterations in Hst. split; [exact Hst|].
  assert (Hlen : length (map (delay w) (seq (steps w + 3) n)) = n)
    by (by rewrite length_map, length_seq).
  destruct (map (delay w) (seq (steps w + 3) n)) as [|x rest] eqn:Hs;
    [simpl in Hlen; lia|].
  injection Hst as <-. simpl. split.
  - unfold np_mean. by rewrite Hlen.
  - destruct (foldr_min_spec x rest) as [Hin Hle].
    destruct (foldr_max_spec x rest) as [_ Hge].
    specialize (Hge _ Hin). exact Hge.
Qed.

Lemma benchmark_counts_iterations_example :
  exists r w',
    benchmark_model example_engine example_world (py "vlm") (py "ones")
      (Z.of_nat 4) = (Some r, w')
    /\ calls w' = calls example_world
                  ++ replicate (4 + 3) (py "vlm", ByName example_dummy)
    /\ timing_stats_of (map (delay example_world) (seq (steps example_world + 3) 4))
       = Ok (timing_stats r)
    /\ mean_time (timing_stats r)
       = (inject_Z (sumZ (map (delay example_world)
                            (seq (steps example_world + 3) 4)))
          / inject_Z (Z.of_nat 4))%Q
    /\ (min_time (timing_stats r) <= max_time (timing_stats r))%Z.
Proof.
  apply (benchmark_counts_iterations example_engine example_world example_world
           (py "vlm") (py "ones") example_model example_config example_dummy
           (fun _ => Ok example_output) 4).
  - apply lookup_singleton_eq.
  - apply lookup_singleton_eq.
  - reflexivity.
  - reflexivity.
  - lia.
Defined.

(** X16: a benchmark of no iteration still invokes the model for the three
    runs of the warmup, and then returns nothing: the minimum of no sample
    raises. *)
Theorem benchmark_without_iterations (self : Engine.t) (w w1 : World)
    (model_name input_type : pystr) (compiled_model : CompiledModel)
    (model_config : ModelConfig) (dummy : gmap pystr tensor)
    (out : nat -> res ndarray) (num_iterations : Z) :
  models self !! model_name = Some compiled_model ->
  model_configs self !! model_name = Some model_config ->
  dummy_inputs (inputs compiled_model) input_type w ∅ = (Ok dummy, w1) ->
  run compiled_model (ByName dummy) = Ok out ->
  (num_iterations <= 0)%Z ->
  exists w',
    benchmark_model self w model_name input_type num_iterations = (None, w')
    /\ calls w' = calls w ++ replicate 3 (model_name, ByName dummy).
Proof.
  intros Hm Hc Hd Hrun Hn. unfold benchmark_model. rewrite Hm, Hc, Hd.
  rewrite (warmup_runs _ _ _ _ _ out Hrun).
  replace (Z.to_nat num_iterations) with 0%nat by lia. simpl timed_runs.
  cbn [mbind res_bind timing_stats_of to_option].
  eexists. split; [reflexivity|].
  destruct (dummy_inputs_world _ _ _ _ _ _ Hd) as (_ & _ & Hcl & _).
  simpl. rewrite Hcl, <- !app_assoc. reflexivity.
Qed.

Lemma benchmark_without_iterations_example :
  exists w',
    benchmark_model example_engine example_world (py "vlm") (py "ones") 0
    = (None, w')
    /\ calls w' = calls example_world
                  ++ replicate 3 (py "vlm", ByName example_dummy).
Proof.
  apply (benchmark_without_iterations example_engine example_world example_world
           (py "vlm") (py "ones") example_model example_config example_dummy
           (fun _ => Ok example_output) 0).
  - apply lookup_singleton_eq.
  - apply lookup_singleton_eq.
  - reflexivity.
  - reflexivity.
  - lia.
Defined.

End BenchmarkProperties.

(** ** The two character codecs together *)

Section Codecs.

Import TextProcessor.

Lemma filter_printable_ids (cs : pystr) (n : nat) :
  Forall (fun c => 32 <= c) cs ->
  List.filter TextOutputProcessor.in_printable_range
    (map Z.of_N cs ++ replicate n 0%Z)
  = map Z.of_N (List.filter (fun c => c <=? 126) cs).
Proof.
  intros Hge. rewrite List.filter_app.
  assert (Hz : List.filter TextOutputProcessor.in_printable_range (replicate n 0%Z) = []).
  { induction n as [|n IH]; [reflexivity|exact IH]. }
  rewrite Hz, app_nil_r. clear Hz.
  induction Hge as [|c cs Hc _ IH]; [reflexivity|]. cbn [map List.filter].
  unfold TextOutputProcessor.in_printable_range at 1.
  replace (32 <=? Z.of_N c)%Z with true by (symmetry; apply Z.leb_le; lia).
  cbn [andb].
  destruct (N.leb_spec c 126) as [Hle|Hgt].
  - replace (Z.of_N c <=? 126)%Z with true by (symmetry; apply Z.leb_le; lia).
    cbn [map]. by rewrite IH.
  - replace (Z.of_N c <=? 126)%Z with false by (symmetry; apply Z.leb_gt; lia).
    exact IH.
Qed.

Lemma map_to_N_of_N (cs : pystr) : map Z.to_N (map Z.of_N cs) = cs.
Proof.
  induction cs as [|c cs IH]; [reflexivity|]. cbn [map]. by rewrite N2Z.id, IH.
Qed.

(** X17: the fallback decoder of the outputs reads the ids that the
    fallback tokenizer of the inputs writes: it gives back the cleaned
    text, cut at L, without its characters above U+007E and trimmed. *)
Theorem output_decoder_reads_input_ids (self : TextProcessor.t)
    (out : TextOutputProcessor.t) (text : pystr) (skip_special_tokens : bool) :
  TextOutputProcessor.tokenizer out = None ->
  exists input_ids,
    _simple_tokenize self text !! py "input_ids" = Some (TArr input_ids)
    /\ TextOutputProcessor.decode_token_ids out (TokArr input_ids) skip_special_tokens
       = strip (List.filter (fun c => c <=? 126)
                            (take (max_length self) (clean_text text))).
Proof.
  intros Htok. eexists. split; [apply simple_tokenize_ids|].
  unfold TextOutputProcessor.decode_token_ids. rewrite Htok.
  cbn [tolist int64_row data]. rewrite mapM_int_of.
  cbn [mbind res_bind mret res_ret].
  destruct (take_clean_chars (max_length self) text) as [Hge _].
  by rewrite filter_printable_ids, map_to_N_of_N.
Qed.

Lemma output_decoder_reads_input_ids_example :
  exists input_ids,
    _simple_tokenize {| max_length := 6; tokenizer := None |} (py "Hello world")
      !! py "input_ids" = Some (TArr input_ids)
    /\ TextOutputProcessor.decode_token_ids
         {| TextOutputProcessor.tokenizer := None;
            TextOutputProcessor.sample_token := fun _ => Ok (NInt 0) |}
         (TokArr input_ids) true
       = py "Hello".
Proof.
  apply (output_decoder_reads_input_ids {| max_length := 6; tokenizer := None |}
           {| TextOutputProcessor.tokenizer := None;
              TextOutputProcessor.sample_token := fun _ => Ok (NInt 0) |}
           (py "Hello world") true).
  reflexivity.
Defined.

End Codecs.

Section ProcessedText.
Context `{Unicode}.

Import TextProcessor.

Lemma tokenize_text_input_ids (self : TextProcessor.t) (text : pystr) :
  is_Some (tokenize_text self text !! py "input_ids").
Proof.
  assert (Hs : is_Some (_simple_tokenize self text !! py "input_ids"))
    by (rewrite simple_tokenize_ids; by eexists).
  unfold tokenize_text.
  destruct (tokenizer self) as [tok|]; [|exact Hs].
  destruct (tok_call tok _ true true) as [encoded|]; [|exact Hs].
  destruct (encoded !! py "input_ids") as [ids|]; [|exact Hs].
  destruct (encoded !! py "attention_mask"), (encoded !! py "token_type_ids");
    rewrite ?(lookup_insert_ne _ (py "token_type_ids") (py "input_ids"))
      by (vm_compute; discriminate);
    rewrite ?(lookup_insert_ne _ (py "attention_mask") (py "input_ids"))
      by (vm_compute; discriminate);
    rewrite lookup_insert_eq; by eexists.
Qed.

(** X18: whatever the tokenizer does, the processed text has the input ids;
    it has the text features exactly when they are asked for, and no key
    besides the four of a processed text. *)
Theorem processed_text_has_input_ids (self : TextProcessor.t) (text : pystr)
    (return_features : bool) :
  is_Some (process_for_inference self text return_features !! py "input_ids")
  /\ (is_Some (process_for_inference self text return_features !! py "text_features")
      <-> return_features = true)
  /\ (forall key, is_Some (process_for_inference self text return_features !! key) ->
        key ∈ text_keys).
Proof.
  split; [|split].
  - unfold process_for_inference. destruct return_features.
    + rewrite lookup_insert_ne by (vm_compute; discriminate).
      apply tokenize_text_input_ids.
    + apply tokenize_text_input_ids.
  - unfold process_for_inference. destruct return_features.
    + rewrite lookup_insert_eq. split; [reflexivity|by eexists].
    + split; [|discriminate]. intros Hf. exfalso. revert Hf.
      unfold tokenize_text, _simple_tokenize.
      repeat case_match;
        rewrite ?lookup_insert_ne by (vm_compute; discriminate);
        rewrite lookup_empty; by intros [? ?].
  - intros key. apply process_for_inference_keys.
Qed.

End ProcessedText.

(** ** The device manager *)

Section Devices.
Context `{Unicode}.

Import NPUManager.

Lemma upper_not_npu_nil : contains (py "NPU") (upper []) = false.
Proof. reflexivity. Qed.

(** X19: the device is the first listed device whose upper-cased name
    contains NPU, and CPU when there is none or when the listing raises;
    the manager reports an NPU exactly when some listed device has such a
    name. *)
Theorem npu_detected_when_listed (devices : list pystr) (e : pystr) :
  let is_npu := fun device => contains (py "NPU") (upper device) in
  npu_device (_detect_devices (Ok devices))
  = default (py "CPU") (List.find is_npu devices)
  /\ is_npu_available (_detect_devices (Ok devices)) = existsb is_npu devices
  /\ npu_device (_detect_devices (Raise e)) = py "CPU"
  /\ is_npu_available (_detect_devices (Raise e)) = false.
Proof.
  intros is_npu. split; [|split; [|split; reflexivity]].
  - unfold _detect_devices. cbn [npu_device]. fold is_npu.
    induction devices as [|d devices IH]; [reflexivity|]. cbn [List.filter List.find].
    destruct (is_npu d); [reflexivity|exact IH].
  - unfold is_npu_available, _detect_devices. cbn [npu_device]. fold is_npu.
    induction devices as [|d devices IH]; [reflexivity|].
    cbn [List.filter existsb]. destruct (is_npu d) eqn:Hd; [|exact IH].
    cbn [orb]. destruct d as [|c d]; [|exact Hd].
    unfold is_npu in Hd. rewrite upper_not_npu_nil in Hd. discriminate.
Qed.

End Devices.

(** ** The server *)

Section ServerProperties.
Context `{Unicode}.

(** X20: the URL of an image is the base and the id joined by one slash:
    the slash is added only to a base that does not end with one. *)
Theorem image_url_joined_by_one_slash (base_url image_id : pystr) :
  exists prefix,
    Server.build_image_url base_url image_id = prefix ++ py "/" ++ image_id
    /\ (base_url = prefix ++ py "/"
        \/ (base_url = prefix /\ endswith (py "/") base_url = false)).
Proof.
  unfold Server.build_image_url. change (py "/") with [47].
  destruct (endswith [47] base_url) eqn:He.
  - apply endswith_char in He as [q ->]. exists q. split; [|by left].
    by rewrite <- app_assoc.
  - exists base_url. split; [reflexivity|by right].
Qed.

Lemma infer_multimodal_generated_text (engine : Engine.t) (w w' : Engine.World)
    (model_name : pystr) (image_input : ImageProcessor.image_input)
    (text_input : pystr) (preprocess_config : option Engine.preprocess_config)
    (r : Engine.InferenceResult) :
  Engine.infer_multimodal engine w model_name image_input text_input
    preprocess_config = (Some r, w') ->
  (Engine.success r = true /\ Engine.error r = None
   /\ is_Some (Engine.timing r) /\ Engine.generated_text r <> Some [])
  \/ (Engine.success r = false /\ is_Some (Engine.error r)
      /\ Engine.generated_text r = None).
Proof.
  unfold Engine.infer_multimodal, Engine.run_multimodal.
  destruct (Engine.models engine !! model_name) as [compiled_model|];
    [|discriminate].
  unfold Engine.invoke, Engine.finish.
  destruct (ImageProcessor.process_for_inference _ _ _) as [x|]; [|discriminate].
  case_bool_decide; [discriminate|].
  destruct (Engine.bind_multimodal _ _ _) as [bound|e]; simpl;
    [|intros [= <- _]; right; by (repeat split; try by eexists)].
  destruct (Engine.run compiled_model _) as [result|e]; simpl;
    [|intros [= <- _]; right; by (repeat split; try by eexists)].
  destruct (Engine.collect_outputs _ _ _ _) as [outs|e]; simpl;
    [|intros [= <- _]; right; by (repeat split; try by eexists)].
  intros [= <- _]. left. simpl. repeat split; [by eexists|].
  by destruct (Engine.extract_generated_text _ _ _ _) as [[|c text]|].
Qed.

(** X21: every answer of the handler names the model of the request, and
    is of one of two kinds: a success with a generated text that is not
    empty, a timing and the image URL, and no error; or a failure with an
    error, and no text, timing or device. *)
Theorem response_is_text_or_error (session_get : pystr -> res Server.HttpResponse)
    (engine : Engine.t) (w : Engine.World)
    (request : Server.TextOnlyInferenceRequest) :
  let response :=
    fst (Server.infer_text_from_image_id session_get engine w request) in
  Server.model_name response = Server.req_model_name request
  /\ ((Server.success response = true
       /\ (exists text, Server.generated_text response = Some text /\ text <> [])
       /\ Server.error response = None
       /\ is_Some (Server.timing response)
       /\ is_Some (Server.image_url response))
      \/ (Server.success response = false
          /\ Server.generated_text response = None
          /\ is_Some (Server.error response)
          /\ Server.timing response = None
          /\ Server.device response = None)).
Proof.
  unfold Server.infer_text_from_image_id.
  destruct (Server.req_image_base_url request) as [base_url|];
    [|simpl; split; [reflexivity|right; by (repeat split; try by eexists)]].
  destruct (Server.fetch_image_from_url _ _) as [image_bytes|];
    [|simpl; split; [reflexivity|right; by (repeat split; try by eexists)]].
  destruct (Engine.infer_multimodal _ _ _ _ _ _) as [[r|] w'] eqn:Hi;
    [|simpl; split; [reflexivity|right; by (repeat split; try by eexists)]].
  apply infer_multimodal_generated_text in Hi
    as [(Hs & He & Ht & Hg)|(Hs & He & Hg)]; rewrite Hs; simpl.
  - split; [reflexivity|]. left. repeat split; try by eexists.
    destruct (Engine.generated_text r) as [[|c text]|]; [done| |].
    + by exists (c :: text).
    + by exists Server.generation_failed.
  - split; [reflexivity|]. right. by (repeat split; try by eexists).
Qed.

(** X22: when the image server answers with a status other than 200, or
    with a content type that does not mention an image, the handler
    answers with a failure that names the URL, and the engine is not
    called. *)
Theorem no_inference_without_image (session_get : pystr -> res Server.HttpResponse)
    (engine : Engine.t) (w : Engine.World)
    (request : Server.TextOnlyInferenceRequest) (base_url : pystr)
    (answer : Server.HttpResponse) :
  let image_url := Server.build_image_url base_url (Server.req_image_id request) in
  Server.req_image_base_url request = Some base_url ->
  session_get image_url = Ok answer ->
  Server.status answer <> 200%Z
  \/ contains (py "image") (lower (default [] (Server.content_type answer))) = false ->
  exists w',
    Server.infer_text_from_image_id session_get engine w request
    = (Server.failed (Server.req_model_name request)
         (py "Failed to fetch image from " ++ image_url) (Some image_url), w')
    /\ Engine.calls w' = Engine.calls w.
Proof.
  intros image_url Hbase Hget Hbad. unfold Server.infer_text_from_image_id.
  rewrite Hbase. fold image_url.
  assert (Hf : Server.fetch_image_from_url session_get image_url = None).
  { unfold Server.fetch_image_from_url. rewrite Hget.
    destruct (Z.eqb_spec (Server.status answer) 200) as [Heq|Hne]; [|reflexivity].
    destruct Hbad as [Hbad|Hbad]; [done|]. by rewrite Hbad. }
  rewrite Hf. eexists. split; reflexivity.
Qed.

(** X23: the load endpoint returns a body exactly when the engine loaded
    the model; when it did not, the exception of status 400 raised for it
    is caught by the handler of the endpoint, and the client gets status
    500 with the text of that exception, never 400. *)
Theorem load_endpoint_never_answers_400 (str_of_exception : Z -> pystr -> pystr)
    (engine : Engine.t) (w : Engine.World)
    (model_name model_path model_type : pystr) :
  let loaded :=
    Engine.load_model engine w model_name model_path model_type None [] in
  snd (Server.load_model str_of_exception engine w model_name model_path model_type)
  = snd loaded
  /\ match fst (Server.load_model str_of_exception engine w model_name model_path
                  model_type) with
     | Server.Returns body =>
       fst loaded = true /\ Server.load_success body = true
       /\ Server.message body = py "Model " ++ model_name ++ py " loaded successfully"
     | Server.HTTPException status_code detail =>
       fst loaded = false /\ status_code = 500%Z
       /\ detail = str_of_exception 400%Z (py "Failed to load model")
     end.
Proof.
  intros loaded. unfold Server.load_model. fold loaded.
  destruct loaded as [[|] engine']; simpl; by repeat split.
Qed.

End ServerProperties.

(** ** The way back from a tensor to an image *)

Section Postprocessing.

Import ImageProcessor.

Lemma restore_pixel (nan_cast : Z) (c : nat) (v : Z) :
  (c < 3)%nat -> (0 <= v <= 255)%Z ->
  clip_uint8 nan_cast
    ((((SF2Prim (f32_div (f32_of_Z v) (f32_of_Z 255)) - nth c imagenet_mean nan)
       / nth c imagenet_std nan) * nth c imagenet_std nan
      + nth c imagenet_mean nan) * 255)%float = v.
Proof.
  intros Hc Hv.
  assert (Hall :
    forallb (fun c =>
      forallb (fun n =>
        (clip_uint8 0
           ((((SF2Prim (f32_div (f32_of_Z (Z.of_nat n)) (f32_of_Z 255))
               - nth c imagenet_mean nan) / nth c imagenet_std nan)
             * nth c imagenet_std nan + nth c imagenet_mean nan) * 255)%float
         =? Z.of_nat n)%Z
        && match int_of_float
                   (let x :=
                      ((((SF2Prim (f32_div (f32_of_Z (Z.of_nat n)) (f32_of_Z 255))
                          - nth c imagenet_mean nan) / nth c imagenet_std nan)
                        * nth c imagenet_std nan + nth c imagenet_mean nan) * 255)%float in
                    if (x <? 0)%float then 0%float
                    else if (255 <? x)%float then 255%float else x) with
           | Ok _ => true
           | Raise _ => false
           end)
        (seq 0 256)) (seq 0 3) = true) by (vm_compute; reflexivity).
  rewrite forallb_forall in Hall.
  assert (Hcin : In c (seq 0 3)) by (apply in_seq; lia).
  specialize (Hall c Hcin). rewrite forallb_forall in Hall.
  assert (Hvin : In (Z.to_nat v) (seq 0 256)) by (apply in_seq; lia).
  specialize (Hall _ Hvin). rewrite Z2Nat.id in Hall by lia.
  apply andb_true_iff in Hall as [Heq Hok]. apply Z.eqb_eq in Heq.
  unfold clip_uint8 in *. cbv zeta in Hok.
  destruct (int_of_float _) as [z|]; [exact Heq|discriminate].
Qed.

(** X24: with the constants of the constructor, postprocessing the tensor
    of a preprocessed image gives back the resized image exactly: the
    same pixel values at the same places, for every image of three
    channels with values from 0 to 255. *)
Theorem postprocess_undoes_preprocess (nan_cast : Z) (self : ImageProcessor.t)
    (image resized : array3) :
  mean self = imagenet_mean -> std self = imagenet_std ->
  cv2_resize self image (Z.of_nat (fst (target_size self)))
             (Z.of_nat (snd (target_size self))) = Some resized ->
  channels resized = 3%nat ->
  (forall y x c, (0 <= pixel resized y x c <= 255)%Z) ->
  exists processed restored,
    preprocess_image self image true = Some processed
    /\ postprocess_image nan_cast self processed = Restored restored
    /\ height restored = height resized
    /\ width restored = width resized
    /\ channels restored = 3%nat
    /\ forall y x c, (c < 3)%nat -> pixel restored y x c = pixel resized y x c.
Proof.
  intros Hmean Hstd Hresize Hch Hrange. unfold preprocess_image.
  destruct (target_size self) as [target_w target_h]. cbn [fst snd] in Hresize.
  rewrite Hresize. cbn [mbind option_bind]. rewrite Hch. cbn [Nat.eqb negb andb].
  eexists _, _. split; [reflexivity|].
  unfold postprocess_image. cbn [dims at4 Nat.eqb Nat.leb broadcasts orb].
  split; [reflexivity|]. cbn [height width channels pixel].
  repeat split. intros y x c Hc.
  unfold broadcast_index. cbn [Nat.eqb]. unfold preprocess_pixel.
  rewrite Hmean, Hstd. by apply restore_pixel.
Qed.

Lemma postprocess_undoes_preprocess_example :
  exists processed restored,
    preprocess_image example_image_processor example_image true = Some processed
    /\ postprocess_image 0 example_image_processor processed = Restored restored
    /\ height restored = 224%nat
    /\ width restored = 224%nat
    /\ channels restored = 3%nat
    /\ forall y x c, (c < 3)%nat ->
         pixel restored y x c
         = pixel example_image (y * 100 / 224)%nat (x * 400 / 224)%nat c.
Proof.
  apply (postprocess_undoes_preprocess 0 example_image_processor example_image
           {| height := 224; width := 224; channels := 3;
              pixel := fun y x c =>
                pixel example_image (y * 100 / 224)%nat (x * 400 / 224)%nat c |}).
  - reflexivity.
  - reflexivity.
  - reflexivity.
  - reflexivity.
  - intros y x c. cbn [pixel example_image].
    pose proof (Z.mod_pos_bound
                  (Z.of_nat (x * 400 / 224 + y * 100 / 224 + c)) 256). lia.
Defined.

(** X25: a tensor whose batch is empty, or that has no channel, two or four
    channels, comes back from postprocessing as it is, not as an
    image. *)
Theorem postprocess_gives_up (nan_cast : Z) (self : ImageProcessor.t)
    (processed_image : tensor4) (n c h w : nat) :
  dims processed_image = (n, c, h, w) ->
  n = 0%nat \/ c = 0%nat \/ c = 2%nat \/ c = 4%nat ->
  postprocess_image nan_cast self processed_image = Unchanged processed_image.
Proof.
  intros Hd Hbad. unfold postprocess_image. rewrite Hd.
  destruct Hbad as [->|[->|[->| ->]]]; [reflexivity| | |];
    by destruct n.
Qed.

Lemma postprocess_gives_up_example :
  postprocess_image 0 example_image_processor rgba_tensor = Unchanged rgba_tensor.
Proof.
  apply (postprocess_gives_up 0 example_image_processor rgba_tensor 1 4 2 2);
    [reflexivity|]. by do 3 right.
Defined.

End Postprocessing.

Section ServerExamples.

Lemma no_inference_without_image_example :
  exists w',
    Server.infer_text_from_image_id example_session_get example_engine example_world
      (example_request "dog.jpg")
    = (Server.failed (py "vlm")
         (py "Failed to fetch image from http://pi.local/image/dog.jpg")
         (Some (py "http://pi.local/image/dog.jpg")), w')
    /\ Engine.calls w' = Engine.calls example_world.
Proof.
  apply (no_inference_without_image example_session_get example_engine example_world
           (example_request "dog.jpg") (py "http://pi.local/image")
           {| Server.status := 404;
              Server.content_type := Some (py "text/html");
              Server.read := Ok [] |}).
  - reflexivity.
  - reflexivity.
  - left. discriminate.
Defined.

End ServerExamples.

Section Restorable.

Import ImageProcessor.

(** X26: every tensor that the image pipeline returns has a batch of one
    and three channels, whatever the image and the resizing library are,
    and postprocessing restores an image of its height and width from it:
    it never gives such a tensor back as it is. *)
Theorem processed_image_is_restorable (nan_cast : Z) (self : ImageProcessor.t)
    (image_input : image_input) (maintain_aspect_ratio : bool)
    (processed : tensor4) :
  process_for_inference self image_input maintain_aspect_ratio = Some processed ->
  exists h w restored,
    dims processed = (1%nat, 3%nat, h, w)
    /\ postprocess_image nan_cast self processed = Restored restored
    /\ height restored = h /\ width restored = w /\ channels restored = 3%nat.
Proof.
  unfold process_for_inference. intros Hp.
  apply bind_Some in Hp as (image & _ & Hp).
  apply bind_Some in Hp as (image' & _ & Hp).
  unfold preprocess_image in Hp. destruct (target_size self) as [target_w target_h].
  apply bind_Some in Hp as (resized & _ & Hp).
  destruct (channels resized =? 1)%nat; [discriminate|].
  destruct (channels resized =? 3)%nat eqn:Hc; [|discriminate].
  apply Nat.eqb_eq in Hc. cbn [negb andb orb] in Hp. injection Hp as <-.
  exists (height resized), (width resized). rewrite Hc.
  eexists. split; [reflexivity|]. unfold postprocess_image. cbn [dims].
  by repeat split.
Qed.

Lemma processed_image_is_restorable_example :
  exists h w restored,
    dims (default example_tensor
            (process_for_inference example_image_processor (Array example_image) true))
    = (1%nat, 3%nat, h, w)
    /\ postprocess_image 0 example_image_processor
         (default example_tensor
            (process_for_inference example_image_processor (Array example_image) true))
       = Restored restored
    /\ height restored = h /\ width restored = w /\ channels restored = 3%nat.
Proof.
  apply (processed_image_is_restorable 0 example_image_processor
           (Array example_image) true).
  reflexivity.
Defined.

End Restorable.
